(** * Google Shopping Title Optimizer: title analyzer, variant generator
      and winner selection of [streamlit_app.py]

    The development embeds the three computations of the application:
    - [analyze_title_quality] (lines 21-51),
    - [generate_title_variants] (lines 53-161),
    - the click-through rate and the winner loop of the page (lines 281
      and 304-315).

    Modelling choices.
    - A Python [str] is a [string]; the model is exact on ASCII titles:
      [lower] and [isupper] treat the letters [A-Z] and [a-z] as the only
      cased characters.
    - A Python [int] is a [Z]; [len] yields a [nat].
    - The product [dict] is a [gmap string string]; [dict.get(k, d)] is
      [get].
    - The counters [dict] keeps its insertion order: it is an association
      list in iteration order.
    - A Python [float] is a binary64 number, computed with the
      operations of the standard library's [SpecFloat] at precision 53
      and maximal exponent 1024: [int / int] is the correctly rounded
      quotient, [float * int] the correctly rounded product. A stored
      rate is the exact rational value of the float it holds, so that
      rates are compared as Python compares them; an infinite product is
      placed at 2 ^ 1024, above every finite binary64. [int / int] raises
      [OverflowError] when the quotient is beyond the floats:
      [rate_defined] tells when it does not. *)

From Stdlib Require Import ZArith QArith String Ascii List DecimalString Lia Bool.
From Stdlib Require Import DecimalNat FinFun SpecFloat.
From stdpp Require Import gmap strings.
Import ListNotations.
Local Open Scope string_scope.

(** ** Python string primitives *)

Module PyStr.

(** [len(s)] *)
Definition len (s : string) : nat := String.length s.

(** Truth value of a string: non-empty. *)
Definition truthy (s : string) : bool :=
  match s with
  | EmptyString => false
  | String _ _ => true
  end.

(** [a or b] on strings. *)
Definition or_else (a b : string) : string :=
  if truthy a then a else b.

Definition is_upper_char (c : ascii) : bool :=
  (65 <=? nat_of_ascii c)%nat && (nat_of_ascii c <=? 90)%nat.

Definition is_lower_char (c : ascii) : bool :=
  (97 <=? nat_of_ascii c)%nat && (nat_of_ascii c <=? 122)%nat.

Definition lower_char (c : ascii) : ascii :=
  if is_upper_char c then ascii_of_nat (nat_of_ascii c + 32) else c.

(** [s.lower()] *)
Fixpoint lower (s : string) : string :=
  match s with
  | EmptyString => EmptyString
  | String c s' => String (lower_char c) (lower s')
  end.

Fixpoint has_char (f : ascii -> bool) (s : string) : bool :=
  match s with
  | EmptyString => false
  | String c s' => f c || has_char f s'
  end.

(** [s.isupper()]: at least one cased character, and no lower-case one. *)
Definition isupper (s : string) : bool :=
  has_char is_upper_char s && negb (has_char is_lower_char s).

(** [w in s]: [w] occurs in [s] as a contiguous substring. *)
Fixpoint contains (w s : string) : bool :=
  String.prefix w s ||
  match s with
  | EmptyString => false
  | String _ s' => contains w s'
  end.

(** [sep.join(parts)] *)
Definition join (sep : string) (parts : list string) : string :=
  String.concat sep parts.

(** [s[:n]] *)
Definition slice_to (n : nat) (s : string) : string :=
  String.substring 0 n s.

(** [str(n)] for a length: its decimal numeral. *)
Definition str_of_nat (n : nat) : string :=
  NilEmpty.string_of_uint (Nat.to_uint n).

(** The double-quote character. *)
Definition dquote : string := String (ascii_of_nat 34) EmptyString.

End PyStr.

(** ** Title quality analyzer *)

Module Analyzer.
Import PyStr.

(** [TITLE_RULES] *)
Definition max_length : nat := 150.
Definition optimal_min : nat := 70.
Definition optimal_max : nat := 150.
Definition avoid_words : list string :=
  ["sale"; "free shipping"; "best"; "cheap"; "buy now"; "new"; "hot"; "!"].

(** The issue texts built by the f-strings of the function. *)
Definition exceeds_issue (n : nat) : string :=
  "Exceeds " ++ str_of_nat max_length ++ " chars (" ++ str_of_nat n ++ ")".

Definition under_issue (n : nat) : string :=
  "Under optimal length (" ++ str_of_nat n ++ " < 70)".

Definition contains_issue (word : string) : string :=
  "Contains " ++ dquote ++ word ++ dquote.

Definition caps_issue : string := "Avoid ALL CAPS".
Definition exclamation_issue : string := "Remove exclamation marks".

(** The state threaded through the function: [issues] and [score]. *)
Definition state : Type := list string * Z.

(** [issues.append(issue); score -= penalty] *)
Definition report (issue : string) (penalty : Z) (st : state) : state :=
  ((fst st ++ [issue])%list, (snd st - penalty)%Z).

(** Lines 26-32. *)
Definition length_check (title : string) (st : state) : state :=
  if (max_length <? len title)%nat then
    report (exceeds_issue (len title)) 30 st
  else if (len title <? optimal_min)%nat then
    report (under_issue (len title)) 10 st
  else st.

(** Lines 36-39: one iteration of the loop over [avoid_words]. *)
Definition word_check (title_lower : string) (st : state) (word : string) : state :=
  if contains word title_lower then report (contains_issue word) 15 st else st.

(** Lines 35-39. *)
Definition banned_words_check (title : string) (st : state) : state :=
  let title_lower := lower title in
  fold_left (word_check title_lower) avoid_words st.

(** Lines 42-44. *)
Definition caps_check (title : string) (st : state) : state :=
  if isupper title && (10 <? len title)%nat then report caps_issue 10 st else st.

(** Lines 47-49. *)
Definition exclamation_check (title : string) (st : state) : state :=
  if contains "!" title then report exclamation_issue 5 st else st.

(** The function up to its [return]: issues and unclamped score. *)
Definition run_checks (title : string) : state :=
  exclamation_check title
    (caps_check title
       (banned_words_check title
          (length_check title ([], 100%Z)))).

(** [analyze_title_quality(title)]: returns [max(score, 0), issues]. *)
Definition analyze_title_quality (title : string) : Z * list string :=
  let st := run_checks title in
  (Z.max (snd st) 0, fst st).

End Analyzer.

(** ** Variant generator *)

Module Generator.
Import PyStr Analyzer.

(** One entry of [variants]: the dict with the keys ['formula'],
    ['title'], ['description'], ['score'], ['issues'] and ['length']. *)
Record Variant : Type := mkVariant {
  v_formula : string;
  v_title : string;
  v_description : string;
  v_score : Z;
  v_issues : string;
  v_length : nat
}.

(** [product.get(key, default)] *)
Definition get (product : gmap string string) (key default : string) : string :=
  match product !! key with
  | Some value => value
  | None => default
  end.

(** ['; '.join(issues) if issues else 'None'] *)
Definition issues_text (issues : list string) : string :=
  match issues with
  | [] => "None"
  | _ :: _ => join "; " issues
  end.

(** [if x: parts.append(x)] *)
Definition append_if (x : string) (parts : list string) : list string :=
  if truthy x then (parts ++ [x])%list else parts.

(** [generate_title_variants(product)] *)
Definition generate_title_variants (product : gmap string string) : list Variant :=
  let variants : list Variant := [] in
  let brand := get product "brand" EmptyString in
  let title := get product "title" EmptyString in
  let color := get product "color" EmptyString in
  let size := get product "size" EmptyString in
  let material := get product "material" EmptyString in
  let product_type :=
    or_else (get product "product_type" EmptyString)
            (get product "google_product_category" EmptyString) in
  (* Variant 1: Brand First *)
  let variants :=
    if truthy brand && truthy title then
      let parts := [brand; title] in
      let parts := append_if color parts in
      let parts := append_if size parts in
      let v1_title := slice_to 150 (join " - " parts) in
      let '(score, issues) := analyze_title_quality v1_title in
      (variants ++
         [ {| v_formula := "Brand First";
              v_title := v1_title;
              v_description := "Google recommended structure";
              v_score := score;
              v_issues := issues_text issues;
              v_length := len v1_title |} ])%list
    else variants in
  (* Variant 2: Product First *)
  let variants :=
    if truthy title && truthy brand then
      let parts := [title; brand] in
      let parts := append_if color parts in
      let parts := append_if size parts in
      let v2_title := slice_to 150 (join " - " parts) in
      let '(score, issues) := analyze_title_quality v2_title in
      (variants ++
         [ {| v_formula := "Product First";
              v_title := v2_title;
              v_description := "Product name leading";
              v_score := score;
              v_issues := issues_text issues;
              v_length := len v2_title |} ])%list
    else variants in
  (* Variant 3: Attribute Rich *)
  let parts : list string := [] in
  let parts := append_if brand parts in
  let parts := append_if product_type parts in
  let parts := append_if color parts in
  let parts := append_if size parts in
  let parts := append_if material parts in
  let variants :=
    if (3 <=? List.length parts)%nat then
      let v3_title := slice_to 150 (join " - " parts) in
      let '(score, issues) := analyze_title_quality v3_title in
      (variants ++
         [ {| v_formula := "Attribute Rich";
              v_title := v3_title;
              v_description := "Maximum attributes";
              v_score := score;
              v_issues := issues_text issues;
              v_length := len v3_title |} ])%list
    else variants in
  (* Variant 4: Compact *)
  let variants :=
    if truthy brand && truthy title then
      let parts := [brand; title] in
      let parts := append_if color parts in
      let parts := append_if size parts in
      let v4_title := slice_to 150 (join " | " parts) in
      let '(score, issues) := analyze_title_quality v4_title in
      (variants ++
         [ {| v_formula := "Compact";
              v_title := v4_title;
              v_description := "Space-efficient format";
              v_score := score;
              v_issues := issues_text issues;
              v_length := len v4_title |} ])%list
    else variants in
  (* Variant 5: Natural Language *)
  let variants :=
    if truthy brand && truthy title then
      let natural := brand ++ " " ++ title in
      let natural := if truthy color then natural ++ " in " ++ color else natural in
      let natural := if truthy size then natural ++ ", " ++ size else natural in
      let v5_title := slice_to 150 natural in
      let '(score, issues) := analyze_title_quality v5_title in
      (variants ++
         [ {| v_formula := "SEO Natural";
              v_title := v5_title;
              v_description := "Natural language format";
              v_score := score;
              v_issues := issues_text issues;
              v_length := len v5_title |} ])%list
    else variants in
  variants.

End Generator.

(** ** Performance tracking and winner selection *)

Module Tracker.
Import PyStr.

(** One value of [test_data[product_id]]. *)
Record Counters : Type := mkCounters {
  impressions : Z;
  clicks : Z;
  ctr : Q;
  conversions : Z
}.

(** [a > b] on rates. *)
Definition Qgtb (a b : Q) : bool := negb (Qle_bool a b).

(** The float that a Python [int] converts to without rounding: the
    integer itself as mantissa, at exponent 0. *)
Definition float_of_int (n : Z) : spec_float :=
  match n with
  | Z0 => S754_zero false
  | Zpos p => S754_finite false p 0
  | Zneg p => S754_finite true p 0
  end.

(** [a / b] on two [int]s: the binary64 nearest to the quotient, ties to
    even. Python raises [OverflowError] where this is an infinity. *)
Definition true_divide (a b : Z) : spec_float :=
  SFdiv 53 1024 (float_of_int a) (float_of_int b).

(** [x * n] for a [float] and an [int]: the binary64 product. *)
Definition float_times (x : spec_float) (n : Z) : spec_float :=
  SFmul 53 1024 x (float_of_int n).

(** The rational value of a float. An infinity is placed at 2 ^ 1024 in
    absolute value, beyond every finite binary64, as comparisons see it;
    no operation of line 281 yields a NaN. *)
Definition float_value (x : spec_float) : Q :=
  match x with
  | S754_zero _ => 0%Q
  | S754_nan => 0%Q
  | S754_infinity s => (cond_Zopp s (2 ^ 1024) # 1)%Q
  | S754_finite s m e =>
      match e with
      | Z0 => (cond_Zopp s (Zpos m) # 1)%Q
      | Zpos p => (cond_Zopp s (Zpos m * 2 ^ Zpos p) # 1)%Q
      | Zneg p => (cond_Zopp s (Zpos m) # 2 ^ p)%Q
      end
  end.

Definition is_infinite (x : spec_float) : bool :=
  match x with
  | S754_infinity _ => true
  | _ => false
  end.

(** The floats that are not above zero. *)
Definition not_positive (x : spec_float) : Prop :=
  match x with
  | S754_zero _ | S754_nan | S754_infinity true | S754_finite true _ _ => True
  | _ => False
  end.

(** Line 281: [(clicks / impressions * 100) if impressions > 0 else 0],
    as the value of the float computed. *)
Definition compute_ctr (clicks impressions : Z) : Q :=
  if (0 <? impressions)%Z
  then float_value (float_times (true_divide clicks impressions) 100)
  else 0%Q.

(** Line 281 does not raise [OverflowError] on the numbers of an entry:
    the division is not evaluated without impressions, and its quotient
    is within the floats otherwise. *)
Definition rate_defined (input : Z * Z * Z) : bool :=
  let '(impressions, clicks, _) := input in
  if (0 <? impressions)%Z
  then negb (is_infinite (true_divide clicks impressions))
  else true.

(** Lines 295-300: the entry stored for a formula from the numbers
    entered for it ([impressions], [clicks], [conversions]). *)
Definition store_counters (input : Z * Z * Z) : Counters :=
  let '(impressions, clicks, conversions) := input in
  {| impressions := impressions;
     clicks := clicks;
     ctr := compute_ctr clicks impressions;
     conversions := conversions |}.

(** The state of the winner loop: [max_ctr] and [winner]. *)
Definition loop_state : Type := Q * option string.

(** Lines 310-312: the body of the loop. *)
Definition winner_step (st : loop_state) (item : string * Counters) : loop_state :=
  if Qgtb (ctr (snd item)) (fst st)
  then (ctr (snd item), Some (fst item))
  else st.

(** Lines 307-312. *)
Definition winner_loop (test_data : list (string * Counters)) : loop_state :=
  fold_left winner_step test_data (0%Q, None).

(** Lines 305-315: the formula and rate announced as winner, if any. *)
Definition show_winner (test_data : list (string * Counters)) : option (string * Q) :=
  match test_data with
  | [] => None
  | _ :: _ =>
      let '(max_ctr, winner) := winner_loop test_data in
      match winner with
      | Some w => if truthy w && Qgtb max_ctr 0 then Some (w, max_ctr) else None
      | None => None
      end
  end.

(** The entries stored for a counters mapping, in its order. *)
Definition stored (counters : list (string * (Z * Z * Z))) : list (string * Counters) :=
  map (fun e => (fst e, store_counters (snd e))) counters.

(** The winner for a counters mapping: every entry's rate is computed
    and stored, then the loop runs over the entries in order. *)
Definition select_winner (counters : list (string * (Z * Z * Z))) : option (string * Q) :=
  show_winner (stored counters).

End Tracker.

(** ** The rule table and the formula table

    The tables of the specification, written as data, and the notions the
    statements below use; the theorems compare them with the functions
    above. *)

Module Spec.
Import PyStr Analyzer Generator Tracker.

(** A row of the analyzer's rule table: condition, issue text, penalty. *)
Record Rule : Type := mkRule {
  fires : string -> bool;
  issue_of : string -> string;
  penalty : Z
}.

Definition exceeds_rule : Rule :=
  mkRule (fun t => (150 <? len t)%nat) (fun t => exceeds_issue (len t)) 30.

Definition under_rule : Rule :=
  mkRule (fun t => (len t <? 70)%nat) (fun t => under_issue (len t)) 10.

Definition word_rule (word : string) : Rule :=
  mkRule (fun t => contains word (lower t)) (fun _ => contains_issue word) 15.

Definition caps_rule : Rule :=
  mkRule (fun t => isupper t && (10 <? len t)%nat) (fun _ => caps_issue) 10.

Definition exclamation_rule : Rule :=
  mkRule (fun t => contains "!" t) (fun _ => exclamation_issue) 5.

(** The table, in the order of its rows. *)
Definition rules : list Rule :=
  ([exceeds_rule; under_rule] ++ map word_rule avoid_words
     ++ [caps_rule; exclamation_rule])%list.

(** Applying one row to the analyzer's state. *)
Definition apply_rule (t : string) (st : state) (r : Rule) : state :=
  if fires r t then report (issue_of r t) (penalty r) st else st.

(** The rules a title triggers. *)
Definition fired (t : string) : list Rule :=
  List.filter (fun r => fires r t) rules.

Definition total_penalty (t : string) : Z :=
  fold_right Z.add 0%Z (map penalty (fired t)).

(** Issue texts and summed penalties of the triggered rows among [rs]. *)
Definition issues_of (t : string) (rs : list Rule) : list string :=
  map (fun r => issue_of r t) (List.filter (fun r => fires r t) rs).

Definition penalties_of (t : string) (rs : list Rule) : Z :=
  fold_right Z.add 0%Z (map penalty (List.filter (fun r => fires r t) rs)).

(** The issues of the length rules. *)
Definition length_issues (t : string) : list string :=
  issues_of t [exceeds_rule; under_rule].

(** The issues of the capitalisation and punctuation rules. *)
Definition tail_issues (t : string) : list string :=
  issues_of t [caps_rule; exclamation_rule].

(** The banned terms found in the lower-cased title. *)
Definition matching_words (t : string) : list string :=
  List.filter (fun w => contains w (lower t)) avoid_words.

(** Penalty of the length rules. *)
Definition length_penalty (t : string) : Z :=
  if (150 <? len t)%nat then 30 else if (len t <? 70)%nat then 10 else 0.

(** Penalty of the rules other than the length rules. *)
Definition other_penalty (t : string) : Z :=
  (15 * Z.of_nat (List.length (matching_words t))
   + (if isupper t && (10 <? len t)%nat then 10 else 0)
   + (if contains "!" t then 5 else 0))%Z.

(** The five formulas, in their fixed order. *)
Definition formula_order : list string :=
  ["Brand First"; "Product First"; "Attribute Rich"; "Compact"; "SEO Natural"].

(** An attribute of the product is present and non-empty. *)
Definition nonempty (product : gmap string string) (attr : string) : bool :=
  truthy (get product attr EmptyString).

(** The attributes the generator reads. *)
Definition attributes : list string :=
  ["brand"; "title"; "color"; "size"; "material"; "product_type";
   "google_product_category"].

(** How many of brand, product_type-or-google_product_category, color,
    size, material are non-empty. *)
Definition rich_count (product : gmap string string) : nat :=
  List.length
    (List.filter (fun b : bool => b)
       [nonempty product "brand";
        nonempty product "product_type" || nonempty product "google_product_category";
        nonempty product "color";
        nonempty product "size";
        nonempty product "material"]).

(** Field-presence precondition of a formula. *)
Definition precondition (product : gmap string string) (formula : string) : bool :=
  if String.eqb formula "Attribute Rich"
  then (3 <=? rich_count product)%nat
  else nonempty product "brand" && nonempty product "title".

(** Two products have the same non-empty attributes. *)
Definition same_presence (p q : gmap string string) : Prop :=
  forall attr, In attr attributes -> nonempty p attr = nonempty q attr.

(** The composed string of each formula, before truncation. *)
Definition optional (x : string) : list string :=
  if truthy x then [x] else [].

Definition composed (product : gmap string string) (formula : string) : string :=
  let brand := get product "brand" EmptyString in
  let title := get product "title" EmptyString in
  let color := get product "color" EmptyString in
  let size := get product "size" EmptyString in
  let material := get product "material" EmptyString in
  let product_type :=
    or_else (get product "product_type" EmptyString)
            (get product "google_product_category" EmptyString) in
  if String.eqb formula "Brand First" then
    join " - " ([brand; title] ++ optional color ++ optional size)
  else if String.eqb formula "Product First" then
    join " - " ([title; brand] ++ optional color ++ optional size)
  else if String.eqb formula "Attribute Rich" then
    join " - " (optional brand ++ optional product_type ++ optional color
                  ++ optional size ++ optional material)
  else if String.eqb formula "Compact" then
    join " | " ([brand; title] ++ optional color ++ optional size)
  else
    let natural := brand ++ " " ++ title in
    let natural := if truthy color then natural ++ " in " ++ color else natural in
    let natural := if truthy size then natural ++ ", " ++ size else natural in
    natural.

(** The static description of each formula. *)
Definition description_of (formula : string) : string :=
  if String.eqb formula "Brand First" then "Google recommended structure"
  else if String.eqb formula "Product First" then "Product name leading"
  else if String.eqb formula "Attribute Rich" then "Maximum attributes"
  else if String.eqb formula "Compact" then "Space-efficient format"
  else "Natural language format".

(** The variant of a formula: the composed string is truncated to 150
    characters, then analyzed. *)
Definition variant_of (product : gmap string string) (formula : string) : Variant :=
  let t := slice_to 150 (composed product formula) in
  {| v_formula := formula;
     v_title := t;
     v_description := description_of formula;
     v_score := fst (analyze_title_quality t);
     v_issues := issues_text (snd (analyze_title_quality t));
     v_length := len t |}.

(** The variants of the formulas whose precondition holds, in order. *)
Definition expected_variants (product : gmap string string) : list Variant :=
  map (variant_of product) (List.filter (precondition product) formula_order).

(** No attribute other than the title is non-empty. *)
Definition at_most_title (product : gmap string string) : bool :=
  forallb (fun attr => String.eqb attr "title" || negb (nonempty product attr))
          attributes.

(** The reading of the winner rule as "the first entry, in iteration
    order, whose rate is strictly greater than every earlier entry's
    rate and strictly greater than 0". [earlier] holds the rates of the
    entries already passed. *)
Fixpoint first_rising (earlier : list Q) (test_data : list (string * Counters))
  : option (string * Q) :=
  match test_data with
  | [] => None
  | (formula, data) :: rest =>
      if forallb (fun c => Qgtb (ctr data) c) earlier && Qgtb (ctr data) 0
      then Some (formula, ctr data)
      else first_rising (earlier ++ [ctr data]) rest
  end.

(** A value a variant can hold under a key: a text, a number, or a list
    of texts. *)
Inductive pyvalue : Type :=
| PyStr (s : string)
| PyInt (z : Z)
| PyList (l : list string).

(** [variant[key]] *)
Definition item (v : Variant) (key : string) : option pyvalue :=
  if String.eqb key "formula" then Some (PyStr (v_formula v))
  else if String.eqb key "title" then Some (PyStr (v_title v))
  else if String.eqb key "description" then Some (PyStr (v_description v))
  else if String.eqb key "score" then Some (PyInt (v_score v))
  else if String.eqb key "issues" then Some (PyStr (v_issues v))
  else if String.eqb key "length" then Some (PyInt (Z.of_nat (v_length v)))
  else None.

(** The rate of an entry of the counters mapping. *)
Definition rate (input : Z * Z * Z) : Q := ctr (store_counters input).

(** The winner under that reading. *)
Definition first_rising_winner (counters : list (string * (Z * Z * Z)))
  : option (string * Q) :=
  first_rising [] (stored counters).

(** What the loop has found after a run from the state [(m, w)]: either
    nothing above [m], or the entry that last raised the maximum. *)
Definition found (l : list (string * Counters)) (m : Q) (w : option string)
           (st : loop_state) : Prop :=
  (st = (m, w) /\ forall e, In e l -> (ctr (snd e) <= m)%Q)
  \/ (exists pre f d post,
        l = (pre ++ (f, d) :: post)%list
        /\ st = (ctr d, Some f)
        /\ (m < ctr d)%Q
        /\ (forall e, In e pre -> (ctr (snd e) < ctr d)%Q)
        /\ (forall e, In e post -> (ctr (snd e) <= ctr d)%Q)).


(** The capital letter that only the [Exceeds] issue starts with. *)
Definition is_E (c : ascii) : bool := Ascii.eqb c "E".

(** The issues attribute of a variant is the list of its issues. *)
Definition issues_is_list (v : Variant) : Prop :=
  item v "issues" = Some (PyList (snd (analyze_title_quality (v_title v)))).

End Spec.

(** ** Sample inputs *)

Module Samples.
Import Generator Tracker.

(** [{brand: "Nike", title: "Running Shoe", color: "Red", size: "10"}] *)
Definition nike : gmap string string :=
  {[ "brand" := "Nike"; "title" := "Running Shoe"; "color" := "Red";
     "size" := "10" ]}.

(** [{title: "Shoe"}] *)
Definition shoe : gmap string string := {[ "title" := "Shoe" ]}.

(** A product whose Brand First string has 160 characters. *)
Definition long_brand : string :=
  "Northern Ridge Outdoor Equipment and Mountaineering Supply Cooperative of Oregon".

Definition long_title : string :=
  "Insulated Waterproof Trekking Jacket with Detachable Hood and Two Zip Pockets".

Definition long_product : gmap string string :=
  {[ "brand" := long_brand; "title" := long_title ]}.

(** Counters [{A: impressions 100, clicks 10}, {B: impressions 50, clicks 10}]. *)
Definition a_then_b : list (string * (Z * Z * Z)) :=
  [("A", (100, 10, 0)%Z); ("B", (50, 10, 0)%Z)].

(** Counters with no impressions at all. *)
Definition no_impressions : list (string * (Z * Z * Z)) :=
  [("A", (0, 0, 0)%Z); ("B", (0, 0, 0)%Z)].

(** Counters whose exact quotients differ (B's is larger) and whose
    computed rates are the same float. *)
Definition near_tie : list (string * (Z * Z * Z)) :=
  [("A", (1000000069, 100000007, 0)%Z); ("B", (1000000059, 100000006, 0)%Z)].

End Samples.

(** ** The page around the three computations

    The parts of the script that are plain computations on the session
    state: the score marker, the separator of an uploaded feed, the
    identifiers given to products, the counters kept per product, and the
    rows of the export. A [dict] whose order matters is an association
    list, updated in place by [dict_set]; the numbers typed into the
    widgets of a formula are an input function. *)

Module Page.
Import PyStr Analyzer Generator Tracker.

(** Lines 247-252: the marker shown beside a score (green, yellow or red
    circle). *)
Inductive marker : Type := Green | Yellow | Red.

Definition score_color (score : Z) : marker :=
  if (90 <=? score)%Z then Green
  else if (70 <=? score)%Z then Yellow
  else Red.

(** The tab and newline characters. *)
Definition tab_char : ascii := ascii_of_nat 9.
Definition newline_char : ascii := ascii_of_nat 10.
Definition tab : string := String tab_char EmptyString.
Definition newline : string := String newline_char EmptyString.

(** [content.split(newline)[0]]: the text before the first newline. *)
Fixpoint first_line (content : string) : string :=
  match content with
  | EmptyString => EmptyString
  | String c rest =>
      if Ascii.eqb c newline_char then EmptyString else String c (first_line rest)
  end.

(** Line 196: the separator of an uploaded feed. *)
Definition detect_separator (content : string) : string :=
  if contains tab (first_line content) then tab else ",".

(** Line 204: the identifiers given to a feed of [n] rows without an id
    column. *)
Definition default_ids (n : nat) : list string :=
  map (fun i => "product_" ++ str_of_nat (i + 1)) (seq 0 n).

(** [d[k] = v] on an insertion-ordered dict: an existing key keeps its
    place, a new key goes last. *)
Fixpoint dict_set {V : Type} (k : string) (v : V) (d : list (string * V))
  : list (string * V) :=
  match d with
  | [] => [(k, v)]
  | (k', v') :: rest =>
      if String.eqb k' k then (k, v) :: rest else (k', v') :: dict_set k v rest
  end.

(** [d.get(k)] *)
Fixpoint dict_get {V : Type} (k : string) (d : list (string * V)) : option V :=
  match d with
  | [] => None
  | (k', v') :: rest => if String.eqb k' k then Some v' else dict_get k rest
  end.

(** One value of [test_data[product_id]] as the page keeps it: the key
    ['ctr'] is absent until the entry is written at lines 295-300. *)
Record Entry : Type := mkEntry {
  e_impressions : Z;
  e_clicks : Z;
  e_ctr : option Q;
  e_conversions : Z
}.

(** Line 234: the entry of a formula right after generation. *)
Definition fresh_entry : Entry :=
  {| e_impressions := 0; e_clicks := 0; e_ctr := None; e_conversions := 0 |}.

(** Lines 281 and 295-300: the entry written from the numbers typed for a
    formula. *)
Definition typed_entry (input : Z * Z * Z) : Entry :=
  let '(impressions, clicks, conversions) := input in
  {| e_impressions := impressions;
     e_clicks := clicks;
     e_ctr := Some (compute_ctr clicks impressions);
     e_conversions := conversions |}.

(** Lines 233-236: the dict comprehension over the generated variants. *)
Definition init_test_data (variants : list Variant) : list (string * Entry) :=
  fold_left (fun d v => dict_set (v_formula v) fresh_entry d) variants [].

(** Lines 243-300: the pass over the variants of a product, which writes
    the entry of each formula from the numbers typed for it. *)
Definition render_variants (inputs : string -> Z * Z * Z) (variants : list Variant)
           (test_data : list (string * Entry)) : list (string * Entry) :=
  fold_left (fun d v => dict_set (v_formula v) (typed_entry (inputs (v_formula v))) d)
            variants test_data.

(** Lines 309-312 on the entries of the page: [data['ctr']] raises
    [KeyError] ([None]) when the key is absent. *)
Definition checked_step (st : option loop_state) (item : string * Entry)
  : option loop_state :=
  match st, e_ctr (snd item) with
  | Some st, Some c => Some (if Qgtb c (fst st) then (c, Some (fst item)) else st)
  | _, _ => None
  end.

(** Lines 305-315 on the entries of the page: [None] is the [KeyError],
    [Some w] the winner announced, if any. *)
Definition checked_winner (test_data : list (string * Entry))
  : option (option (string * Q)) :=
  match test_data with
  | [] => Some None
  | _ :: _ =>
      match fold_left checked_step test_data (Some (0%Q, None)) with
      | None => None
      | Some (max_ctr, winner) =>
          Some match winner with
               | Some w => if truthy w && Qgtb max_ctr 0 then Some (w, max_ctr) else None
               | None => None
               end
      end
  end.

(** Line 181: the number shown as "Variants Generated". *)
Definition variant_count (variants : list (string * list Variant)) : nat :=
  list_sum (map (fun pv => List.length (snd pv)) variants).

(** One element of [export_data]. *)
Record ExportRow : Type := mkExportRow {
  r_product_id : string;
  r_original_title : string;
  r_formula : string;
  r_new_title : string;
  r_quality_score : Z;
  r_issues : string;
  r_length : nat;
  r_impressions : Z;
  r_clicks : Z;
  r_ctr : Q;
  r_conversions : Z
}.

(** Line 324: the first row of the catalog whose id is [product_id];
    [iloc[0]] raises [IndexError] ([None]) when there is none. *)
Definition find_product (catalog : list (gmap string string)) (product_id : string)
  : option (gmap string string) :=
  List.find (fun row => String.eqb (get row "id" EmptyString) product_id) catalog.

(** Lines 327-341: the row of one variant. *)
Definition export_row (product : gmap string string) (product_id : string)
           (test_data : list (string * list (string * Entry))) (variant : Variant)
  : ExportRow :=
  let entry :=
    match dict_get product_id test_data with
    | Some per_formula => dict_get (v_formula variant) per_formula
    | None => None
    end in
  {| r_product_id := product_id;
     r_original_title := get product "title" EmptyString;
     r_formula := v_formula variant;
     r_new_title := v_title variant;
     r_quality_score := v_score variant;
     r_issues := v_issues variant;
     r_length := v_length variant;
     r_impressions := match entry with Some e => e_impressions e | None => 0%Z end;
     r_clicks := match entry with Some e => e_clicks e | None => 0%Z end;
     r_ctr := match entry with
              | Some e => match e_ctr e with Some c => c | None => 0%Q end
              | None => 0%Q
              end;
     r_conversions := match entry with Some e => e_conversions e | None => 0%Z end |}.

(** Lines 323-341: the rows of one product are appended to
    [export_data]; [None] once a product is not found. *)
Definition export_step (catalog : list (gmap string string))
           (test_data : list (string * list (string * Entry)))
           (acc : option (list ExportRow)) (pv : string * list Variant)
  : option (list ExportRow) :=
  match acc with
  | None => None
  | Some rows =>
      match find_product catalog (fst pv) with
      | None => None
      | Some product =>
          Some (rows ++ map (export_row product (fst pv) test_data) (snd pv))%list
      end
  end.

(** Lines 321-341: [export_data], from the catalog, the variants kept per
    product and the counters kept per product. *)
Definition export_data (catalog : list (gmap string string))
           (variants : list (string * list Variant))
           (test_data : list (string * list (string * Entry)))
  : option (list ExportRow) :=
  fold_left (export_step catalog test_data) variants (Some []).

(** The counters mapping made of the numbers typed for each variant. *)
Definition typed_counters (inputs : string -> Z * Z * Z) (variants : list Variant)
  : list (string * (Z * Z * Z)) :=
  map (fun v => (v_formula v, inputs (v_formula v))) variants.

(** The three formulas that join brand, title, color and size with a
    separator of three characters. *)
Definition joined_formula (formula : string) : Prop :=
  formula = "Brand First" \/ formula = "Product First" \/ formula = "Compact".

End Page.

(** ** Sample inputs of the page *)

Module PageSamples.
Import Page.

(** The header of a tab-separated feed, and data lines with commas. *)
Definition tsv_header : string := "id" ++ tab ++ "title" ++ tab ++ "brand".
Definition data_lines : string := "7" ++ tab ++ "Shoe, red" ++ tab ++ "Nike".

(** The numbers typed on the page: 50 impressions and 10 clicks for
    Compact, 100 impressions and 10 clicks for every other formula. *)
Definition typed_numbers (formula : string) : Z * Z * Z :=
  if String.eqb formula "Compact" then (50, 10, 1)%Z else (100, 10, 2)%Z.

End PageSamples.

(** ** Proof automation *)

(** Two issue texts that start with different characters differ. *)
Ltac clash H :=
  apply (f_equal (String.get 0)) in H;
  cbv [String.get String.append Analyzer.exceeds_issue Analyzer.under_issue
       Analyzer.contains_issue Analyzer.caps_issue Analyzer.exclamation_issue]
    in H;
  discriminate H.

(** * Properties *)

(** ** Strings *)

Module PyStrFacts.
Import PyStr.

Lemma len_slice_to (n : nat) (s : string) :
  len (slice_to n s) = Nat.min n (len s).
Proof.
  unfold len, slice_to. revert n.
  induction s as [|c s IH]; intros [|n]; simpl; auto.
Qed.

Lemma len_slice_to_le (n : nat) (s : string) : (len (slice_to n s) <= n)%nat.
Proof. rewrite len_slice_to. lia. Qed.

Lemma slice_to_all (n : nat) (s : string) :
  (len s <= n)%nat -> slice_to n s = s.
Proof.
  unfold len, slice_to. revert n.
  induction s as [|c s IH]; intros [|n] H; simpl in *; try reflexivity; try lia.
  f_equal. apply IH. lia.
Qed.

Lemma lower_char_exclamation (c : ascii) :
  Ascii.eqb (lower_char c) "!" = Ascii.eqb c "!".
Proof. destruct c as [[] [] [] [] [] [] [] []]; reflexivity. Qed.

Lemma prefix_empty (s : string) : String.prefix EmptyString s = true.
Proof. destruct s; reflexivity. Qed.

Lemma prefix_char (c a : ascii) (s : string) :
  String.prefix (String c EmptyString) (String a s) = Ascii.eqb c a.
Proof.
  simpl. destruct (ascii_dec c a) as [->|Hne].
  - rewrite Ascii.eqb_refl. apply prefix_empty.
  - symmetry. apply Ascii.eqb_neq. exact Hne.
Qed.

(** Lower-casing neither adds nor removes an exclamation mark. *)
Lemma contains_exclamation_lower (s : string) :
  contains "!" (lower s) = contains "!" s.
Proof.
  induction s as [|a s IH]; [reflexivity|].
  cbn [lower contains]. rewrite !prefix_char, IH.
  f_equal. rewrite !(Ascii.eqb_sym "!"). apply lower_char_exclamation.
Qed.

End PyStrFacts.

(** ** The analyzer against its rule table *)

Module AnalyzerFacts.
Import PyStr Analyzer Spec PyStrFacts.

Lemma fold_apply_rule (t : string) (rs : list Rule) (st : state) :
  fold_left (apply_rule t) rs st
  = ((fst st ++ issues_of t rs)%list, (snd st - penalties_of t rs)%Z).
Proof.
  revert st. induction rs as [|r rs IH]; intros [issues score].
  - cbn. rewrite app_nil_r. f_equal. lia.
  - cbn [fold_left]. rewrite IH. unfold apply_rule, issues_of, penalties_of.
    cbn [List.filter]. destruct (fires r t); cbn; [|reflexivity].
    rewrite <- app_assoc. f_equal. lia.
Qed.

Lemma length_check_rules (t : string) (st : state) :
  length_check t st = fold_left (apply_rule t) [exceeds_rule; under_rule] st.
Proof.
  unfold length_check, max_length, optimal_min. cbn [fold_left].
  unfold apply_rule. cbn [fires issue_of penalty exceeds_rule under_rule].
  destruct (150 <? len t)%nat eqn:Hbig; [|reflexivity].
  destruct (len t <? 70)%nat eqn:Hsmall; [|reflexivity].
  apply Nat.ltb_lt in Hbig, Hsmall. lia.
Qed.

Lemma banned_words_rules (t : string) (ws : list string) (st : state) :
  fold_left (word_check (lower t)) ws st
  = fold_left (apply_rule t) (map word_rule ws) st.
Proof.
  revert st. induction ws as [|w ws IH]; intros st; [reflexivity|].
  cbn [fold_left map]. rewrite IH. reflexivity.
Qed.

(** The checks of the function, run in sequence, are the rows of the
    table applied in order. *)
Lemma run_checks_rules (t : string) :
  run_checks t = fold_left (apply_rule t) rules ([], 100%Z).
Proof.
  unfold run_checks, rules, banned_words_check.
  rewrite !fold_left_app, <- banned_words_rules, <- length_check_rules.
  reflexivity.
Qed.

Lemma run_checks_fired (t : string) :
  run_checks t
  = (map (fun r => issue_of r t) (fired t), (100 - total_penalty t)%Z).
Proof. rewrite run_checks_rules, fold_apply_rule. reflexivity. Qed.

Lemma penalties_nonneg (t : string) (rs : list Rule) :
  Forall (fun r => (0 <= penalty r)%Z) rs -> (0 <= penalties_of t rs)%Z.
Proof.
  unfold penalties_of. induction 1 as [|r rs Hr _ IH]; cbn; [lia|].
  destruct (fires r t); cbn; lia.
Qed.

Lemma rules_penalties_nonneg : Forall (fun r => (0 <= penalty r)%Z) rules.
Proof. unfold rules, avoid_words. cbn. repeat constructor; cbn; lia. Qed.

Lemma total_penalty_nonneg (t : string) : (0 <= total_penalty t)%Z.
Proof. apply (penalties_nonneg t rules), rules_penalties_nonneg. Qed.

Lemma fired_nil_iff (t : string) :
  fired t = [] <-> forall r, In r rules -> fires r t = false.
Proof.
  unfold fired. generalize rules as rs.
  induction rs as [|r rs IH]; cbn.
  - split; [intros _ r []|reflexivity].
  - destruct (fires r t) eqn:Hr.
    + split; [discriminate|]. intros H. specialize (H r (or_introl eq_refl)). congruence.
    + rewrite IH. split.
      * intros H r' [<-|Hin]; auto.
      * intros H r' Hin. apply H. right. exact Hin.
Qed.

Lemma penalties_of_app (t : string) (rs rs' : list Rule) :
  penalties_of t (rs ++ rs') = (penalties_of t rs + penalties_of t rs')%Z.
Proof.
  unfold penalties_of. rewrite List.filter_app, map_app.
  induction (map penalty (List.filter (fun r => fires r t) rs)) as [|z zs IH]; cbn; lia.
Qed.

Lemma issues_of_app (t : string) (rs rs' : list Rule) :
  issues_of t (rs ++ rs') = (issues_of t rs ++ issues_of t rs')%list.
Proof. unfold issues_of. rewrite List.filter_app, map_app. reflexivity. Qed.

Lemma word_rules_issues (t : string) (ws : list string) :
  issues_of t (map word_rule ws)
  = map contains_issue (List.filter (fun w => contains w (lower t)) ws).
Proof.
  unfold issues_of. induction ws as [|w ws IH]; [reflexivity|].
  cbn [map List.filter fires word_rule]. destruct (contains w (lower t)); cbn; congruence.
Qed.

Lemma word_rules_penalties (t : string) (ws : list string) :
  penalties_of t (map word_rule ws)
  = (15 * Z.of_nat (List.length (List.filter (fun w => contains w (lower t)) ws)))%Z.
Proof.
  unfold penalties_of. induction ws as [|w ws IH]; [reflexivity|].
  cbn [map List.filter fires word_rule]. destruct (contains w (lower t)); [|exact IH].
  cbn [map fold_right penalty word_rule List.length]. rewrite IH. lia.
Qed.

Lemma issues_layout (t : string) :
  snd (analyze_title_quality t)
  = (length_issues t ++ map contains_issue (matching_words t) ++ tail_issues t)%list.
Proof.
  unfold analyze_title_quality. cbn [snd]. rewrite run_checks_fired. cbn [fst].
  change (map (fun r => issue_of r t) (fired t)) with (issues_of t rules).
  unfold rules. rewrite !issues_of_app, word_rules_issues. reflexivity.
Qed.

Lemma total_penalty_split (t : string) :
  total_penalty t = (length_penalty t + other_penalty t)%Z.
Proof.
  change (total_penalty t) with (penalties_of t rules).
  unfold rules. rewrite !penalties_of_app, word_rules_penalties.
  unfold length_penalty, other_penalty, matching_words, penalties_of.
  cbn [List.filter fires exceeds_rule under_rule caps_rule exclamation_rule].
  destruct (150 <? len t)%nat eqn:Hbig, (len t <? 70)%nat eqn:Hsmall;
    destruct (isupper t && (10 <? len t)%nat), (contains "!" t);
    cbn [map fold_right penalty exceeds_rule under_rule caps_rule exclamation_rule];
    try lia; apply Nat.ltb_lt in Hbig, Hsmall; lia.
Qed.

Lemma score_formula (t : string) :
  fst (analyze_title_quality t)
  = Z.max (100 - length_penalty t - other_penalty t) 0.
Proof.
  unfold analyze_title_quality. cbn [fst]. rewrite run_checks_fired. cbn [snd].
  rewrite total_penalty_split. f_equal. lia.
Qed.

End AnalyzerFacts.

(** ** Telling the issue texts apart *)

Module IssueFacts.
Import PyStr Analyzer Spec PyStrFacts AnalyzerFacts.

Lemma in_length_issues (t x : string) :
  In x (length_issues t) <->
  (x = exceeds_issue (len t) /\ (150 < len t)%nat)
  \/ (x = under_issue (len t) /\ (len t < 70)%nat).
Proof.
  unfold length_issues, issues_of.
  cbn [List.filter fires exceeds_rule under_rule].
  destruct (Nat.ltb_spec 150 (len t)), (Nat.ltb_spec (len t) 70);
    cbn [map In issue_of exceeds_rule under_rule];
    intuition (subst; try lia; auto).
Qed.

Lemma in_tail_issues (t x : string) :
  In x (tail_issues t) <->
  (x = caps_issue /\ isupper t && (10 <? len t)%nat = true)
  \/ (x = exclamation_issue /\ contains "!" t = true).
Proof.
  unfold tail_issues, issues_of.
  cbn [List.filter fires caps_rule exclamation_rule].
  destruct (isupper t && (10 <? len t)%nat), (contains "!" t);
    cbn [map In issue_of caps_rule exclamation_rule];
    intuition (try discriminate; auto).
Qed.

Lemma in_word_issues (t x : string) :
  In x (map contains_issue (matching_words t)) <->
  exists w, x = contains_issue w /\ In w avoid_words /\ contains w (lower t) = true.
Proof.
  unfold matching_words. rewrite in_map_iff. split.
  - intros (w & <- & Hw). apply filter_In in Hw. exists w. tauto.
  - intros (w & -> & Hin & Hw). exists w. split; [reflexivity|].
    apply filter_In. tauto.
Qed.

(** The texts of two banned terms differ. *)
Lemma contains_issue_inj (w w' : string) :
  In w avoid_words -> In w' avoid_words ->
  contains_issue w' = contains_issue w -> w' = w.
Proof.
  unfold avoid_words. cbn [In]. intros Hw Hw'.
  repeat (destruct Hw as [<-|Hw]; [|]); try contradiction;
    repeat (destruct Hw' as [<-|Hw']; [|]); try contradiction;
    intros H; try reflexivity; vm_compute in H; discriminate H.
Qed.

Lemma avoid_words_once (w : string) :
  In w avoid_words -> count_occ string_dec avoid_words w = 1%nat.
Proof.
  unfold avoid_words. cbn [In]. intros Hw.
  repeat (destruct Hw as [<-|Hw]; [reflexivity|]). contradiction.
Qed.

Lemma count_occ_map_filter (g : string -> string) (f : string -> bool)
      (l : list string) (w : string) :
  (forall w', In w' l -> g w' = g w -> w' = w) ->
  count_occ string_dec (map g (List.filter f l)) (g w)
  = if f w then count_occ string_dec l w else 0%nat.
Proof.
  induction l as [|a l IH]; intros Hinj.
  - cbn. destruct (f w); reflexivity.
  - assert (IH' := IH (fun w' Hin => Hinj w' (or_intror Hin))).
    cbn [List.filter]. destruct (string_dec a w) as [->|Hne].
    + destruct (f w) eqn:Hf.
      * cbn [map]. rewrite !count_occ_cons_eq by reflexivity. congruence.
      * exact IH'.
    + rewrite (count_occ_cons_neq _ l Hne).
      destruct (f a); [|exact IH'].
      cbn [map]. rewrite count_occ_cons_neq; [exact IH'|].
      intros Heq. apply Hne, Hinj; [left; reflexivity|exact Heq].
Qed.

End IssueFacts.

(** ** Claims about the analyzer *)

Module AnalyzerClaims.
Import PyStr Analyzer Spec Samples PyStrFacts AnalyzerFacts IssueFacts.

Lemma in_issues (t x : string) :
  In x (snd (analyze_title_quality t)) <->
  In x (length_issues t)
  \/ In x (map contains_issue (matching_words t))
  \/ In x (tail_issues t).
Proof. rewrite issues_layout, !in_app_iff. reflexivity. Qed.

Lemma exceeds_reported_only_when_long (t : string) (n : nat) :
  In (exceeds_issue n) (snd (analyze_title_quality t)) -> (150 < len t)%nat.
Proof.
  rewrite in_issues, in_length_issues, in_word_issues, in_tail_issues.
  intros [[[_ H]|[H _]]|[(w & H & _)|[[H _]|[H _]]]]; try exact H; clash H.
Qed.

Lemma under_reported_only_when_short (t : string) (n : nat) :
  In (under_issue n) (snd (analyze_title_quality t)) -> (len t < 70)%nat.
Proof.
  rewrite in_issues, in_length_issues, in_word_issues, in_tail_issues.
  intros [[[H _]|[_ H]]|[(w & H & _)|[[H _]|[H _]]]]; try exact H; clash H.
Qed.

Lemma contains_reported_iff (t w : string) :
  In w avoid_words ->
  (In (contains_issue w) (snd (analyze_title_quality t))
   <-> contains w (lower t) = true).
Proof.
  intros Hw. rewrite in_issues, in_length_issues, in_word_issues, in_tail_issues.
  split.
  - intros [[[H _]|[H _]]|[(w' & H & Hw' & Hc)|[[H _]|[H _]]]]; try clash H.
    symmetry in H. apply contains_issue_inj in H; auto. congruence.
  - intros Hc. right. left. exists w. auto.
Qed.

Lemma exclamation_reported_iff (t : string) :
  In exclamation_issue (snd (analyze_title_quality t)) <-> contains "!" t = true.
Proof.
  rewrite in_issues, in_length_issues, in_word_issues, in_tail_issues.
  split.
  - intros [[[H _]|[H _]]|[(w' & H & _)|[[H _]|[_ H]]]]; try exact H; clash H.
  - intros Hc. right. right. right. auto.
Qed.

Lemma contains_reported_once (t w : string) :
  In w avoid_words ->
  count_occ string_dec (snd (analyze_title_quality t)) (contains_issue w)
  = if contains w (lower t) then 1%nat else 0%nat.
Proof.
  intros Hw. rewrite issues_layout, !count_occ_app.
  assert (Hl : count_occ string_dec (length_issues t) (contains_issue w) = 0%nat).
  { apply count_occ_not_In. rewrite in_length_issues.
    intros [[H _]|[H _]]; clash H. }
  assert (Ht : count_occ string_dec (tail_issues t) (contains_issue w) = 0%nat).
  { apply count_occ_not_In. rewrite in_tail_issues.
    intros [[H _]|[H _]]; clash H. }
  rewrite Hl, Ht. unfold matching_words.
  rewrite count_occ_map_filter.
  - rewrite (avoid_words_once w Hw). destruct (contains w (lower t)); reflexivity.
  - intros w' Hw'. apply contains_issue_inj; assumption.
Qed.

(** C2. For every title, the score returned by the analyzer is 100 minus
    the penalties of the triggered rules, floored at 0, hence an integer
    between 0 and 100; the issues returned are the texts of the
    triggered rules in table order, so the list is empty exactly when no
    rule is triggered, and every triggered rule has its text in the
    list, whatever the score. *)
Theorem analyze_score_range_and_issues (t : string) :
  fst (analyze_title_quality t) = Z.max (100 - total_penalty t) 0
  /\ (0 <= fst (analyze_title_quality t) <= 100)%Z
  /\ snd (analyze_title_quality t) = map (fun r => issue_of r t) (fired t)
  /\ (snd (analyze_title_quality t) = [] <->
      forall r, In r rules -> fires r t = false)
  /\ (forall r, In r rules -> fires r t = true ->
      In (issue_of r t) (snd (analyze_title_quality t))).
Proof.
  assert (Hi : snd (analyze_title_quality t) = map (fun r => issue_of r t) (fired t)).
  { unfold analyze_title_quality. rewrite run_checks_fired. reflexivity. }
  assert (Hs : fst (analyze_title_quality t) = Z.max (100 - total_penalty t) 0).
  { unfold analyze_title_quality. rewrite run_checks_fired. reflexivity. }
  pose proof (total_penalty_nonneg t) as Hp.
  repeat split.
  - exact Hs.
  - rewrite Hs. lia.
  - rewrite Hs. lia.
  - exact Hi.
  - rewrite Hi. intros H. apply fired_nil_iff.
    destruct (fired t); [reflexivity|discriminate H].
  - intros H. apply fired_nil_iff in H. rewrite Hi, H. reflexivity.
  - intros r Hr Hf. rewrite Hi.
    apply (in_map (fun r => issue_of r t)). apply filter_In. auto.
Qed.

(** The floor is reached, and every triggered rule is still reported. *)
Example analyze_floored :
  analyze_title_quality "SALE FREE SHIPPING BEST CHEAP BUY NOW NEW HOT!"
  = (0%Z,
     [under_issue 46; contains_issue "sale"; contains_issue "free shipping";
      contains_issue "best"; contains_issue "cheap"; contains_issue "buy now";
      contains_issue "new"; contains_issue "hot"; contains_issue "!";
      caps_issue; exclamation_issue])
  /\ total_penalty "SALE FREE SHIPPING BEST CHEAP BUY NOW NEW HOT!" = 145%Z.
Proof. split; vm_compute; reflexivity. Qed.

(** A promotional title in capitals: banned terms, capitals and
    punctuation are all reported. *)
Example analyze_sale_best_deal :
  analyze_title_quality "SALE!!! BEST DEAL"
  = (30%Z,
     [under_issue 17; contains_issue "sale"; contains_issue "best";
      contains_issue "!"; caps_issue; exclamation_issue]).
Proof. vm_compute. reflexivity. Qed.

(** C5. For every title, each of the eight banned terms that occurs in
    the lower-cased title contributes exactly one issue [Contains
    "<term>"] and 15 points of penalty, cumulatively, and a term that
    does not occur contributes nothing; a title containing [!]
    moreover gets the issue [Remove exclamation marks] and 5 points of
    penalty, so that it carries both issues. *)
Theorem analyze_banned_words_and_exclamation (t : string) :
  snd (analyze_title_quality t)
  = (length_issues t ++ map contains_issue (matching_words t) ++ tail_issues t)%list
  /\ (forall w, In w avoid_words ->
        (In (contains_issue w) (snd (analyze_title_quality t))
         <-> contains w (lower t) = true)
        /\ count_occ string_dec (snd (analyze_title_quality t)) (contains_issue w)
           = if contains w (lower t) then 1%nat else 0%nat)
  /\ (In exclamation_issue (snd (analyze_title_quality t)) <-> contains "!" t = true)
  /\ fst (analyze_title_quality t)
     = Z.max (100 - length_penalty t
              - 15 * Z.of_nat (List.length (matching_words t))
              - (if isupper t && (10 <? len t)%nat then 10 else 0)
              - (if contains "!" t then 5 else 0)) 0
  /\ (contains "!" t = true ->
      In (contains_issue "!") (snd (analyze_title_quality t))
      /\ In exclamation_issue (snd (analyze_title_quality t))
      /\ In "!" (matching_words t)).
Proof.
  split; [apply issues_layout|].
  split; [intros w Hw; split;
          [apply contains_reported_iff|apply contains_reported_once]; exact Hw|].
  split; [apply exclamation_reported_iff|].
  split.
  - rewrite score_formula. unfold other_penalty. f_equal. lia.
  - intros Hc.
    assert (Hin : In "!" avoid_words) by (unfold avoid_words; cbn; tauto).
    assert (Hl : contains "!" (lower t) = true)
      by (rewrite contains_exclamation_lower; exact Hc).
    split; [apply contains_reported_iff; assumption|].
    split; [apply exclamation_reported_iff; exact Hc|].
    unfold matching_words. apply filter_In. auto.
Qed.

(** A title of 160 characters gets the [Exceeds] issue and loses 30. *)
Example analyze_long_title :
  len (long_brand ++ " - " ++ long_title) = 160%nat
  /\ analyze_title_quality (long_brand ++ " - " ++ long_title)
     = (70%Z, [exceeds_issue 160]).
Proof. split; vm_compute; reflexivity. Qed.

(** C6. For every title, the [Exceeds] issue is reported, with its
    penalty of 30, when the title is longer than 150 characters; the
    [Under optimal] issue is reported, with its penalty of 10, when it
    is shorter than 70; a title between 70 and 150 characters gets
    neither; and no title gets both. *)
Theorem analyze_length_rules (t : string) :
  ((150 < len t)%nat ->
     In (exceeds_issue (len t)) (snd (analyze_title_quality t))
     /\ fst (analyze_title_quality t) = Z.max (100 - 30 - other_penalty t) 0)
  /\ ((len t < 70)%nat ->
     In (under_issue (len t)) (snd (analyze_title_quality t))
     /\ fst (analyze_title_quality t) = Z.max (100 - 10 - other_penalty t) 0)
  /\ (forall n, In (exceeds_issue n) (snd (analyze_title_quality t)) ->
        (150 < len t)%nat)
  /\ (forall m, In (under_issue m) (snd (analyze_title_quality t)) ->
        (len t < 70)%nat)
  /\ (forall n m,
        ~ (In (exceeds_issue n) (snd (analyze_title_quality t))
           /\ In (under_issue m) (snd (analyze_title_quality t)))).
Proof.
  split; [|split; [|split; [|split]]].
  - intros H. split.
    + apply in_issues. left. apply in_length_issues. left. auto.
    + rewrite score_formula. unfold length_penalty.
      apply Nat.ltb_lt in H. rewrite H. reflexivity.
  - intros H. split.
    + apply in_issues. left. apply in_length_issues. right. auto.
    + rewrite score_formula. unfold length_penalty.
      destruct (Nat.ltb_spec 150 (len t)); [lia|].
      apply Nat.ltb_lt in H. rewrite H. reflexivity.
  - intros n. apply exceeds_reported_only_when_long.
  - intros m. apply under_reported_only_when_short.
  - intros n m [Hn Hm].
    apply exceeds_reported_only_when_long in Hn.
    apply under_reported_only_when_short in Hm. lia.
Qed.

End AnalyzerClaims.

(** ** The generator against the formula table *)

Module GeneratorFacts.
Import PyStr Analyzer Generator Spec PyStrFacts.

(** The generator emits exactly the variants of the formula table. *)
Lemma generate_expected (product : gmap string string) :
  generate_title_variants product = expected_variants product.
Proof.
  unfold generate_title_variants, expected_variants, variant_of, composed,
    precondition, rich_count, nonempty, formula_order, description_of,
    append_if, optional, or_else.
  generalize (get product "brand" EmptyString) as brand.
  generalize (get product "title" EmptyString) as title.
  generalize (get product "color" EmptyString) as color.
  generalize (get product "size" EmptyString) as size.
  generalize (get product "material" EmptyString) as material.
  generalize (get product "product_type" EmptyString) as product_type.
  generalize (get product "google_product_category" EmptyString) as category.
  intros [|c1 category] [|c2 product_type] [|c3 material] [|c4 size]
         [|c5 color] [|c6 title] [|c7 brand]; reflexivity.
Qed.

End GeneratorFacts.

(** ** Claims about the generator *)

Module GeneratorClaims.
Import PyStr Analyzer Generator Spec Samples.
Import PyStrFacts AnalyzerFacts IssueFacts AnalyzerClaims GeneratorFacts.

Lemma in_generate (product : gmap string string) (v : Variant) :
  In v (generate_title_variants product) <->
  exists formula,
    In formula formula_order /\ precondition product formula = true
    /\ v = variant_of product formula.
Proof.
  rewrite generate_expected. unfold expected_variants. rewrite in_map_iff.
  split.
  - intros (f & <- & Hf). apply filter_In in Hf. exists f. tauto.
  - intros (f & Hin & Hpre & ->). exists f. split; [reflexivity|].
    apply filter_In. tauto.
Qed.

Lemma generated_formulas (product : gmap string string) :
  map v_formula (generate_title_variants product)
  = List.filter (precondition product) formula_order.
Proof.
  rewrite generate_expected. unfold expected_variants.
  rewrite map_map. apply map_id.
Qed.

Lemma formula_order_NoDup : List.NoDup formula_order.
Proof.
  unfold formula_order.
  repeat (constructor; [cbn [In]; intuition discriminate|]).
  constructor.
Qed.

Lemma same_presence_precondition (p q : gmap string string) (formula : string) :
  same_presence p q -> precondition p formula = precondition q formula.
Proof.
  intros H. unfold precondition, rich_count.
  rewrite (H "brand"), (H "title"), (H "color"), (H "size"), (H "material"),
    (H "product_type"), (H "google_product_category");
    try reflexivity; unfold attributes; cbn [In]; tauto.
Qed.

(** C3. For every product, the generator returns at most five variants,
    in the order Brand First, Product First, Attribute Rich, Compact,
    SEO Natural, each formula at most once; a formula is present exactly
    when its field-presence precondition holds; hence two products with
    the same non-empty attributes get the same formulas. *)
Theorem generate_formulas (product : gmap string string) :
  map v_formula (generate_title_variants product)
  = List.filter (precondition product) formula_order
  /\ (List.length (generate_title_variants product) <= 5)%nat
  /\ List.NoDup (map v_formula (generate_title_variants product))
  /\ (forall formula,
        In formula (map v_formula (generate_title_variants product))
        <-> In formula formula_order /\ precondition product formula = true)
  /\ (forall other,
        same_presence product other ->
        map v_formula (generate_title_variants other)
        = map v_formula (generate_title_variants product)).
Proof.
  pose proof (generated_formulas product) as Hf.
  split; [exact Hf|]. split; [|split; [|split]].
  - rewrite <- (length_map v_formula), Hf.
    apply (Nat.le_trans _ _ _ (filter_length_le _ _)). reflexivity.
  - rewrite Hf. apply List.NoDup_filter, formula_order_NoDup.
  - intros formula. rewrite Hf. apply filter_In.
  - intros other Hsame. rewrite Hf, generated_formulas.
    apply filter_ext. intros formula. symmetry.
    apply same_presence_precondition, Hsame.
Qed.

(** Both ends are reached: five variants for the Nike product, none for
    a product with a title only. *)
Example generate_five_and_none :
  map v_formula (generate_title_variants nike) = formula_order
  /\ map v_formula (generate_title_variants shoe) = [].
Proof. split; vm_compute; reflexivity. Qed.

(** C7. For every product and every variant the generator emits, the
    stored title is the first 150 characters of the composed string of
    the variant's formula, the score and issues are those of the
    analyzer on that truncated title, and the length field is the
    character count of the truncated title; a composed string of 160
    characters gives a length of 150. *)
Theorem generate_truncates_before_scoring
        (product : gmap string string) (v : Variant) :
  In v (generate_title_variants product) ->
  v_title v = slice_to 150 (composed product (v_formula v))
  /\ v_title v = String.substring 0 150 (composed product (v_formula v))
  /\ v_score v = fst (analyze_title_quality (v_title v))
  /\ v_issues v = issues_text (snd (analyze_title_quality (v_title v)))
  /\ v_length v = len (v_title v)
  /\ v_length v = Nat.min 150 (len (composed product (v_formula v)))
  /\ (len (composed product (v_formula v)) = 160%nat -> v_length v = 150%nat).
Proof.
  intros Hv. apply in_generate in Hv. destruct Hv as (f & _ & _ & ->).
  cbn [variant_of v_title v_formula v_score v_issues v_length].
  repeat split; try reflexivity.
  - apply len_slice_to.
  - intros H. rewrite len_slice_to, H. reflexivity.
Qed.

(** The Brand First string of [long_product] has 160 characters; its
    variant keeps the first 150. *)
Lemma generate_truncates_witness :
  In (variant_of long_product "Brand First") (generate_title_variants long_product)
  /\ len (composed long_product "Brand First") = 160%nat
  /\ v_length (variant_of long_product "Brand First") = 150%nat
  /\ v_title (variant_of long_product "Brand First")
     = "Northern Ridge Outdoor Equipment and Mountaineering Supply Cooperative of Oregon - Insulated Waterproof Trekking Jacket with Detachable Hood and Two Z".
Proof.
  assert (Hin : In (variant_of long_product "Brand First")
                   (generate_title_variants long_product)).
  { vm_compute. left. reflexivity. }
  destruct (generate_truncates_before_scoring long_product _ Hin)
    as (Ht & _ & _ & _ & _ & _ & H160).
  split; [exact Hin|]. split; [vm_compute; reflexivity|].
  split; [apply H160; vm_compute; reflexivity|].
  rewrite Ht. vm_compute. reflexivity.
Defined.

End GeneratorClaims.

(** ** Characters of the issue texts *)

Module CharFacts.
Import PyStr Analyzer Generator Spec.
Import PyStrFacts AnalyzerFacts IssueFacts AnalyzerClaims.

Lemma has_char_append (f : ascii -> bool) (a b : string) :
  has_char f (a ++ b) = has_char f a || has_char f b.
Proof.
  induction a as [|c a IH]; [reflexivity|].
  change (String c a ++ b) with (String c (a ++ b)).
  cbn [has_char]. rewrite IH. apply orb_assoc.
Qed.

Lemma has_char_join (f : ascii -> bool) (sep : string) (parts : list string) :
  has_char f sep = false ->
  (forall x, In x parts -> has_char f x = false) ->
  has_char f (join sep parts) = false.
Proof.
  intros Hsep. unfold join. induction parts as [|x parts IH]; intros H.
  - reflexivity.
  - destruct parts as [|y parts].
    + apply H. left. reflexivity.
    + change (has_char f (x ++ sep ++ String.concat sep (y :: parts)) = false).
      rewrite !has_char_append, Hsep, (H x (or_introl eq_refl)).
      apply IH. intros z Hz. apply H. right. exact Hz.
Qed.

(** A string that contains a word contains the word's first character. *)
Lemma contains_first_char (c : ascii) (w s : string) :
  contains (String c w) s = true -> has_char (Ascii.eqb c) s = true.
Proof.
  induction s as [|a s IH]; cbn [contains has_char String.prefix].
  - discriminate.
  - destruct (ascii_dec c a) as [->|Hne].
    + rewrite Ascii.eqb_refl. reflexivity.
    + cbn [orb]. intros H. rewrite (IH H). apply orb_true_r.
Qed.

Lemma has_char_E_sym (s : string) :
  has_char (Ascii.eqb "E") s = has_char is_E s.
Proof.
  induction s as [|a s IH]; [reflexivity|].
  cbn [has_char]. rewrite IH. unfold is_E. rewrite Ascii.eqb_sym. reflexivity.
Qed.

Lemma numerals_without_E (n : nat) :
  (n <= 150)%nat -> has_char is_E (str_of_nat n) = false.
Proof.
  intros Hn.
  assert (Hall : forallb (fun k => negb (has_char is_E (str_of_nat k))) (seq 0 151) = true)
    by (vm_compute; reflexivity).
  rewrite forallb_forall in Hall. specialize (Hall n).
  apply negb_true_iff, Hall, in_seq. lia.
Qed.

Lemma word_issues_without_E (w : string) :
  In w avoid_words -> has_char is_E (contains_issue w) = false.
Proof.
  unfold avoid_words. cbn [In]. intros Hw.
  repeat (destruct Hw as [<-|Hw]; [reflexivity|]). contradiction.
Qed.

(** On a title of at most 150 characters, no issue has a capital E. *)
Lemma issues_without_E (t x : string) :
  (len t <= 150)%nat ->
  In x (snd (analyze_title_quality t)) -> has_char is_E x = false.
Proof.
  intros Hlen. rewrite in_issues, in_length_issues, in_word_issues, in_tail_issues.
  intros [[[_ H]|[-> _]]|[(w & -> & Hw & _)|[[-> _]|[-> _]]]].
  - lia.
  - unfold under_issue. rewrite !has_char_append, numerals_without_E by exact Hlen.
    reflexivity.
  - apply word_issues_without_E, Hw.
  - reflexivity.
  - reflexivity.
Qed.

Lemma issues_text_without_E (t : string) :
  (len t <= 150)%nat ->
  has_char is_E (issues_text (snd (analyze_title_quality t))) = false.
Proof.
  intros Hlen. unfold issues_text.
  destruct (snd (analyze_title_quality t)) as [|x l] eqn:Hl; [reflexivity|].
  apply has_char_join; [reflexivity|].
  intros y Hy. apply (issues_without_E t); [exact Hlen|]. rewrite Hl. exact Hy.
Qed.

End CharFacts.

(** ** Claims about the emitted variants *)

Module VariantClaims.
Import PyStr Analyzer Generator Spec Samples.
Import PyStrFacts AnalyzerFacts IssueFacts AnalyzerClaims GeneratorFacts.
Import GeneratorClaims CharFacts.

(** C4, as stated, fails: no variant of the Nike product has the title
    [Nike - Running Shoe - Red - 10] together with length 31, score 100
    and no issue. *)
Lemma nike_brand_first_not_31_100 :
  ~ (exists v,
       In v (generate_title_variants nike)
       /\ v_formula v = "Brand First"
       /\ v_title v = "Nike - Running Shoe - Red - 10"
       /\ v_length v = 31%nat
       /\ v_score v = 100%Z
       /\ snd (analyze_title_quality (v_title v)) = []).
Proof.
  intros (v & Hin & _ & _ & Hlen & _).
  vm_compute in Hin.
  repeat (destruct Hin as [<-|Hin]; [discriminate Hlen|]). contradiction.
Qed.

(** C4, amended. The generator applied to [{brand: "Nike", title:
    "Running Shoe", color: "Red", size: "10"}] produces exactly one Brand
    First variant; its title is [Nike - Running Shoe - Red - 10], its
    length is 30, its score is 90, and its only issue is [Under optimal
    length (30 < 70)]. *)
Theorem nike_variant_length_30_score_90 :
  List.filter (fun v => String.eqb (v_formula v) "Brand First")
              (generate_title_variants nike)
  = [ {| v_formula := "Brand First";
         v_title := "Nike - Running Shoe - Red - 10";
         v_description := "Google recommended structure";
         v_score := 90;
         v_issues := "Under optimal length (30 < 70)";
         v_length := 30 |} ]
  /\ len "Nike - Running Shoe - Red - 10" = 30%nat
  /\ analyze_title_quality "Nike - Running Shoe - Red - 10"
     = (90%Z, [under_issue 30]).
Proof. repeat split; vm_compute; reflexivity. Qed.

(** C8. A product in which no attribute other than the title is
    non-empty gets the empty list of variants. *)
Theorem generate_without_attributes (product : gmap string string) :
  at_most_title product = true -> generate_title_variants product = [].
Proof.
  intros H. rewrite generate_expected.
  unfold expected_variants, formula_order, precondition, rich_count.
  unfold at_most_title, attributes in H. cbn [forallb String.eqb] in H.
  revert H. cbn.
  destruct (nonempty product "brand"), (nonempty product "color"),
    (nonempty product "size"), (nonempty product "material"),
    (nonempty product "product_type"),
    (nonempty product "google_product_category");
    cbn; intros H; try discriminate H; reflexivity.
Qed.

(** The product [{title: "Shoe"}] and the empty product get no variant. *)
Lemma generate_without_attributes_witness :
  (at_most_title shoe = true /\ generate_title_variants shoe = [])
  /\ (at_most_title ∅ = true /\ generate_title_variants ∅ = []).
Proof.
  split; (split; [vm_compute; reflexivity
                 |apply generate_without_attributes; vm_compute; reflexivity]).
Defined.

(** C9, as stated, fails: the issues attribute of the Brand First
    variant of the Nike product is a text, not the list of its issues. *)
Lemma nike_issues_not_a_list :
  ~ (forall v, In v (generate_title_variants nike) -> issues_is_list v).
Proof.
  intros H.
  assert (Hin : In (variant_of nike "Brand First") (generate_title_variants nike))
    by (vm_compute; left; reflexivity).
  apply H in Hin. vm_compute in Hin. discriminate Hin.
Qed.

(** A variant without issues holds the text [None], not an empty list. *)
Example long_product_issues_none :
  In (variant_of long_product "Brand First") (generate_title_variants long_product)
  /\ snd (analyze_title_quality (v_title (variant_of long_product "Brand First"))) = []
  /\ item (variant_of long_product "Brand First") "issues" = Some (PyStr "None").
Proof. repeat split; vm_compute; auto. Qed.

(** C9, amended. For every product and every variant the generator
    emits, the issues attribute is one text: the issue strings of the
    analyzer for the variant's title, in order, joined with [; ], and
    the text [None] when there is no issue. *)
Theorem variant_issues_text (product : gmap string string) (v : Variant) :
  In v (generate_title_variants product) ->
  item v "issues"
  = Some (PyStr (issues_text (snd (analyze_title_quality (v_title v)))))
  /\ (snd (analyze_title_quality (v_title v)) = [] -> v_issues v = "None")
  /\ (snd (analyze_title_quality (v_title v)) <> [] ->
      v_issues v = join "; " (snd (analyze_title_quality (v_title v)))).
Proof.
  intros Hv. apply in_generate in Hv. destruct Hv as (f & _ & _ & ->).
  cbn [variant_of v_title v_issues].
  split; [reflexivity|]. split.
  - intros ->. reflexivity.
  - intros Hne. unfold issues_text.
    destruct (snd (analyze_title_quality _)); [contradiction|reflexivity].
Qed.

Lemma variant_issues_text_witness :
  item (variant_of nike "Brand First") "issues"
  = Some (PyStr "Under optimal length (30 < 70)")
  /\ v_issues (variant_of long_product "Brand First") = "None".
Proof.
  assert (Hn : In (variant_of nike "Brand First") (generate_title_variants nike))
    by (vm_compute; left; reflexivity).
  assert (Hl : In (variant_of long_product "Brand First")
                  (generate_title_variants long_product))
    by (vm_compute; left; reflexivity).
  destruct (variant_issues_text nike _ Hn) as (Hitem & _ & _).
  destruct (variant_issues_text long_product _ Hl) as (_ & Hnone & _).
  split.
  - rewrite Hitem. vm_compute. reflexivity.
  - apply Hnone. vm_compute. reflexivity.
Defined.

(** C10. For every product, no variant the generator emits carries the
    [Exceeds] issue or its penalty of 30: the title has at most 150
    characters, the analyzer's issues for it hold no [Exceeds] issue,
    the issues text built from them does not contain [Exceeds], and the
    length penalty in the score is 0 or 10. *)
Theorem generated_never_exceeds (product : gmap string string) (v : Variant) :
  In v (generate_title_variants product) ->
  (len (v_title v) <= 150)%nat
  /\ (forall n, ~ In (exceeds_issue n) (snd (analyze_title_quality (v_title v))))
  /\ v_issues v = issues_text (snd (analyze_title_quality (v_title v)))
  /\ contains "Exceeds" (v_issues v) = false
  /\ (length_penalty (v_title v) = 0%Z \/ length_penalty (v_title v) = 10%Z)
  /\ v_score v
     = Z.max (100 - length_penalty (v_title v) - other_penalty (v_title v)) 0.
Proof.
  intros Hv. apply in_generate in Hv. destruct Hv as (f & _ & _ & ->).
  cbn [variant_of v_title v_issues v_score].
  set (t := slice_to 150 (composed product f)).
  assert (Hlen : (len t <= 150)%nat) by apply len_slice_to_le.
  split; [exact Hlen|]. split; [|split; [reflexivity|split; [|split]]].
  - intros n Hn. apply exceeds_reported_only_when_long in Hn. lia.
  - destruct (contains "Exceeds" (issues_text (snd (analyze_title_quality t))))
      eqn:Hc; [|reflexivity].
    apply contains_first_char in Hc.
    rewrite has_char_E_sym, issues_text_without_E in Hc by exact Hlen.
    discriminate Hc.
  - unfold length_penalty.
    destruct (Nat.ltb_spec 150 (len t)); [lia|].
    destruct (len t <? 70)%nat; auto.
  - apply score_formula.
Qed.

Lemma generated_never_exceeds_witness :
  len (composed long_product "Brand First") = 160%nat
  /\ len (v_title (variant_of long_product "Brand First")) = 150%nat
  /\ contains "Exceeds" (v_issues (variant_of long_product "Brand First")) = false
  /\ v_score (variant_of long_product "Brand First") = 100%Z.
Proof.
  assert (Hl : In (variant_of long_product "Brand First")
                  (generate_title_variants long_product))
    by (vm_compute; left; reflexivity).
  destruct (generated_never_exceeds long_product _ Hl) as (_ & _ & _ & Hc & _).
  split; [vm_compute; reflexivity|]. split; [vm_compute; reflexivity|].
  split; [exact Hc|vm_compute; reflexivity].
Defined.

End VariantClaims.

(** ** The winner loop *)

Module TrackerFacts.
Import PyStr Tracker Spec.

Lemma Qgtb_true (a b : Q) : Qgtb a b = true <-> (b < a)%Q.
Proof.
  unfold Qgtb. rewrite negb_true_iff. split.
  - intros H. apply Qnot_le_lt. intros Hle.
    apply Qle_bool_iff in Hle. congruence.
  - intros H. destruct (Qle_bool a b) eqn:Hle; [|reflexivity].
    apply Qle_bool_iff in Hle. exfalso. exact (Qlt_not_le _ _ H Hle).
Qed.

Lemma Qgtb_false (a b : Q) : Qgtb a b = false <-> (a <= b)%Q.
Proof.
  unfold Qgtb. rewrite negb_false_iff. apply Qle_bool_iff.
Qed.

Lemma fold_winner_step (l : list (string * Counters)) (m : Q) (w : option string) :
  found l m w (fold_left winner_step l (m, w)).
Proof.
  induction l as [|e l IH] using rev_ind.
  - left. split; [reflexivity|]. intros e [].
  - rewrite fold_left_app. cbn [fold_left].
    destruct IH as [[-> Hall]|(pre & f & d & post & -> & -> & Hm & Hpre & Hpost)];
      unfold winner_step; cbn [fst snd].
    + destruct (Qgtb (ctr (snd e)) m) eqn:Hcmp.
      * apply Qgtb_true in Hcmp. right.
        exists l, (fst e), (snd e), []. rewrite <- surjective_pairing.
        repeat split; auto.
        -- intros e' He'. eapply Qle_lt_trans; [apply Hall, He'|exact Hcmp].
        -- intros e' [].
      * apply Qgtb_false in Hcmp. left. split; [reflexivity|].
        intros e' He'. apply in_app_iff in He'.
        destruct He' as [He'|[<-|[]]]; auto.
    + destruct (Qgtb (ctr (snd e)) (ctr d)) eqn:Hcmp.
      * apply Qgtb_true in Hcmp. right.
        exists (pre ++ (f, d) :: post)%list, (fst e), (snd e), [].
        rewrite <- surjective_pairing.
        repeat split; auto.
        -- eapply Qlt_trans; [exact Hm|exact Hcmp].
        -- intros e' He'. apply in_app_iff in He'.
           destruct He' as [He'|[<-|He']].
           ++ eapply Qlt_trans; [apply Hpre, He'|exact Hcmp].
           ++ exact Hcmp.
           ++ eapply Qle_lt_trans; [apply Hpost, He'|exact Hcmp].
        -- intros e' [].
      * apply Qgtb_false in Hcmp. right.
        exists pre, f, d, (post ++ [e])%list.
        rewrite <- app_assoc. repeat split; auto.
        intros e' He'. apply in_app_iff in He'.
        destruct He' as [He'|[<-|[]]]; auto.
Qed.

End TrackerFacts.

(** ** Claims about the winner selection *)

Module TrackerClaims.
Import PyStr Tracker Spec Samples TrackerFacts.

Lemma in_stored (counters : list (string * (Z * Z * Z))) (e : string * (Z * Z * Z)) :
  In e counters -> In (fst e, store_counters (snd e)) (stored counters).
Proof. intros H. apply (in_map (fun e => (fst e, store_counters (snd e)))), H. Qed.

Lemma stored_split (counters : list (string * (Z * Z * Z)))
      (pre post : list (string * Counters)) (f : string) (d : Counters) :
  stored counters = (pre ++ (f, d) :: post)%list ->
  exists pre' x post',
    counters = (pre' ++ (f, x) :: post')%list
    /\ d = store_counters x /\ stored pre' = pre /\ stored post' = post.
Proof.
  intros H. apply map_eq_app in H. destruct H as (pre' & rest & -> & Hpre & Hrest).
  apply map_eq_cons in Hrest. destruct Hrest as ([f' x] & post' & -> & Hx & Hpost).
  cbn [fst snd] in Hx. injection Hx as -> <-.
  exists pre', x, post'. auto.
Qed.

Lemma truthy_nonempty (s : string) : s <> EmptyString -> truthy s = true.
Proof. destruct s; [congruence|reflexivity]. Qed.

(** The outcome of the loop, whatever rates are stored: the winner is the
    last entry that raised the maximum, none when no rate is positive. *)
Lemma show_winner_outcome (test_data : list (string * Counters)) :
  Forall (fun e => fst e <> EmptyString) test_data ->
  match show_winner test_data with
  | Some (f, c) =>
      exists pre d post,
        test_data = (pre ++ (f, d) :: post)%list
        /\ c = ctr d
        /\ (0 < c)%Q
        /\ (forall e, In e pre -> (ctr (snd e) < c)%Q)
        /\ (forall e, In e post -> (ctr (snd e) <= c)%Q)
  | None => forall e, In e test_data -> (ctr (snd e) <= 0)%Q
  end.
Proof.
  intros Hnames. unfold show_winner.
  destruct test_data as [|e0 td] eqn:Htd; [intros e []|].
  rewrite <- Htd in *. clear Htd e0 td. unfold winner_loop.
  destruct (fold_winner_step test_data 0%Q None)
    as [[-> Hall]|(pre & f & d & post & -> & -> & Hm & Hpre & Hpost)].
  - exact Hall.
  - assert (Hf : truthy f = true).
    { apply truthy_nonempty. rewrite List.Forall_forall in Hnames.
      apply (Hnames (f, d)), in_elt. }
    rewrite Hf, (proj2 (Qgtb_true _ _) Hm). cbn [andb].
    exists pre, d, post. auto.
Qed.

(** The same outcome for a counters mapping, with the rates of line 281. *)
Lemma select_winner_outcome (counters : list (string * (Z * Z * Z))) :
  Forall (fun e => fst e <> EmptyString) counters ->
  match select_winner counters with
  | Some (f, c) =>
      exists pre x post,
        counters = (pre ++ (f, x) :: post)%list
        /\ c = rate x
        /\ (0 < c)%Q
        /\ (forall e, In e pre -> (rate (snd e) < c)%Q)
        /\ (forall e, In e post -> (rate (snd e) <= c)%Q)
  | None => forall e, In e counters -> (rate (snd e) <= 0)%Q
  end.
Proof.
  intros Hnames. unfold select_winner.
  assert (Hstored : Forall (fun e : string * Counters => fst e <> EmptyString)
                           (stored counters)).
  { unfold stored. rewrite List.Forall_forall in *.
    intros e He. apply in_map_iff in He. destruct He as (e' & <- & He').
    apply Hnames, He'. }
  pose proof (show_winner_outcome (stored counters) Hstored) as Hout.
  destruct (show_winner (stored counters)) as [[f c]|].
  - destruct Hout as (pre & d & post & Hsplit & -> & Hpos & Hpre & Hpost).
    apply stored_split in Hsplit.
    destruct Hsplit as (pre' & x & post' & -> & -> & <- & <-).
    exists pre', x, post'. repeat split; auto.
    + intros e He. apply (Hpre (fst e, store_counters (snd e))), in_stored, He.
    + intros e He. apply (Hpost (fst e, store_counters (snd e))), in_stored, He.
  - intros e He. apply (Hout (fst e, store_counters (snd e))), in_stored, He.
Qed.

(** A formula with an empty name is never announced (line 314). *)
Example unnamed_formula_not_announced :
  select_winner [(EmptyString, (1, 1, 0)%Z)] = None.
Proof. vm_compute. reflexivity. Qed.

(** C1, as stated, fails: on the claim's own counters the winner is B,
    at 20 percent, whereas the first entry whose rate is above every
    earlier rate and above 0 is A, at 10 percent. *)
Lemma a_then_b_first_rising_is_not_winner :
  (exists c, select_winner a_then_b = Some ("B", c) /\ (c == 20)%Q)
  /\ (exists c, first_rising_winner a_then_b = Some ("A", c) /\ (c == 10)%Q)
  /\ select_winner a_then_b <> first_rising_winner a_then_b.
Proof.
  split; [exists (rate (50, 10, 0)%Z); split; vm_compute; reflexivity|].
  split; [exists (rate (100, 10, 0)%Z); split; vm_compute; reflexivity|].
  vm_compute. discriminate.
Qed.

(** The rate of 7 clicks in 100 impressions is the float
    7.000000000000001, not 7. *)
Example rate_is_rounded :
  (rate (100, 7, 0)%Z == 7881299347898369 # 2 ^ 50)%Q
  /\ (7 < rate (100, 7, 0)%Z)%Q.
Proof. split; vm_compute; reflexivity. Qed.

(** Two entries whose exact quotients differ can get the same float: the
    first one is then kept. *)
Example near_tie_keeps_first :
  rate (1000000069, 100000007, 0)%Z = rate (1000000059, 100000006, 0)%Z
  /\ (100000007 * 1000000059 < 100000006 * 1000000069)%Z
  /\ select_winner near_tie = Some ("A", rate (1000000069, 100000007, 0)%Z).
Proof. repeat split; vm_compute; reflexivity. Qed.

(** C1, amended. For every counters mapping with non-empty formula
    names on which line 281 does not raise, each entry's rate is the
    float [clicks / impressions * 100] (the binary64 quotient, then the
    binary64 product) when [impressions > 0] and 0 otherwise; the winner
    is the entry whose rate is strictly greater than every earlier
    entry's rate, at least every later entry's rate, and strictly
    greater than 0 (the first entry that attains the greatest rate);
    there is no winner exactly when no entry has a positive rate, in
    particular when all impressions are 0. For A (100 impressions, 10
    clicks) followed by B (50 impressions, 10 clicks) the winner is B,
    at 20 percent; where two rates are the same float, as in
    [near_tie], the earlier entry wins. The loop selects in the same
    way whatever rates are stored. *)
Theorem select_winner_first_greatest (counters : list (string * (Z * Z * Z))) :
  Forall (fun e => fst e <> EmptyString) counters ->
  Forall (fun e => rate_defined (snd e) = true) counters ->
  (forall impressions clicks conversions,
      rate (impressions, clicks, conversions)
      = if (0 <? impressions)%Z
        then float_value
               (SFmul 53 1024
                  (SFdiv 53 1024 (float_of_int clicks) (float_of_int impressions))
                  (float_of_int 100))
        else 0%Q)
  /\ match select_winner counters with
     | Some (f, c) =>
         exists pre x post,
           counters = (pre ++ (f, x) :: post)%list
           /\ c = rate x
           /\ (0 < c)%Q
           /\ (forall e, In e pre -> (rate (snd e) < c)%Q)
           /\ (forall e, In e post -> (rate (snd e) <= c)%Q)
     | None => forall e, In e counters -> (rate (snd e) <= 0)%Q
     end
  /\ (select_winner counters = None <->
      forall e, In e counters -> (rate (snd e) <= 0)%Q)
  /\ ((forall e, In e counters -> fst (fst (snd e)) = 0%Z) ->
      select_winner counters = None)
  /\ (exists c, select_winner a_then_b = Some ("B", c) /\ (c == 20)%Q)
  /\ select_winner near_tie = Some ("A", rate (1000000069, 100000007, 0)%Z)
  /\ (forall test_data : list (string * Counters),
        Forall (fun e => fst e <> EmptyString) test_data ->
        match show_winner test_data with
        | Some (f, c) =>
            exists pre d post,
              test_data = (pre ++ (f, d) :: post)%list
              /\ c = ctr d
              /\ (0 < c)%Q
              /\ (forall e, In e pre -> (ctr (snd e) < c)%Q)
              /\ (forall e, In e post -> (ctr (snd e) <= c)%Q)
        | None => forall e, In e test_data -> (ctr (snd e) <= 0)%Q
        end).
Proof.
  intros Hnames _. pose proof (select_winner_outcome counters Hnames) as Hout.
  assert (Hnone : select_winner counters = None <->
                  forall e, In e counters -> (rate (snd e) <= 0)%Q).
  { split.
    - intros H. rewrite H in Hout. exact Hout.
    - intros Hall. destruct (select_winner counters) as [[f c]|]; [|reflexivity].
      destruct Hout as (pre & x & post & -> & -> & Hpos & _).
      exfalso. apply (Qlt_not_le _ _ Hpos).
      apply (Hall (f, x)), in_elt. }
  split; [reflexivity|]. split; [exact Hout|]. split; [exact Hnone|]. split.
  - intros Hzero. apply Hnone. intros [f [[i c] cv]] He.
    specialize (Hzero _ He). cbn [fst snd] in Hzero. subst i.
    unfold rate, store_counters, compute_ctr. cbn [ctr snd Z.ltb Z.compare].
    apply Qle_refl.
  - split; [|split; [vm_compute; reflexivity|exact show_winner_outcome]].
    exists (rate (50, 10, 0)%Z). split; vm_compute; reflexivity.
Qed.

(** The theorem at the claim's counters and at counters without
    impressions. *)
Lemma select_winner_first_greatest_witness :
  (exists pre x post,
      a_then_b = (pre ++ ("B", x) :: post)%list
      /\ (0 < rate x)%Q
      /\ (forall e, In e pre -> (rate (snd e) < rate x)%Q))
  /\ select_winner no_impressions = None.
Proof.
  assert (Ha : Forall (fun e : string * (Z * Z * Z) => fst e <> EmptyString) a_then_b)
    by (repeat constructor; discriminate).
  assert (Hn : Forall (fun e : string * (Z * Z * Z) => fst e <> EmptyString) no_impressions)
    by (repeat constructor; discriminate).
  assert (Hda : Forall (fun e : string * (Z * Z * Z) => rate_defined (snd e) = true)
                       a_then_b)
    by (repeat constructor).
  assert (Hdn : Forall (fun e : string * (Z * Z * Z) => rate_defined (snd e) = true)
                       no_impressions)
    by (repeat constructor).
  split.
  - destruct (select_winner_first_greatest a_then_b Ha Hda) as (_ & Hout & _).
    assert (Hsel : select_winner a_then_b = Some ("B", rate (50, 10, 0)%Z))
      by (vm_compute; reflexivity).
    rewrite Hsel in Hout.
    destruct Hout as (pre & x & post & Hsplit & Hc & Hpos & Hpre & _).
    exists pre, x, post. rewrite <- Hc. auto.
  - destruct (select_winner_first_greatest no_impressions Hn Hdn)
      as (_ & _ & _ & Hzero & _).
    apply Hzero. intros e He. cbn in He.
    destruct He as [<-|[<-|[]]]; reflexivity.
Defined.

(** Beyond the floats the quotient is not defined: Python raises
    [OverflowError] for 10 ^ 400 clicks in one impression. *)
Example rate_not_defined_beyond_floats :
  rate_defined (1, 10 ^ 400, 0)%Z = false
  /\ rate_defined (10 ^ 400, 1, 0)%Z = true
  /\ rate (10 ^ 400, 1, 0)%Z = 0%Q.
Proof. repeat split; vm_compute; reflexivity. Qed.

End TrackerClaims.


(** * Further properties of the script *)

(** ** Scores, issues and the score marker *)

Module MarkerFacts.
Import PyStr Analyzer Generator Spec Samples Page.
Import PyStrFacts AnalyzerFacts IssueFacts AnalyzerClaims GeneratorFacts.
Import GeneratorClaims.

Lemma score_by_total (t : string) :
  fst (analyze_title_quality t) = Z.max (100 - total_penalty t) 0.
Proof. unfold analyze_title_quality. rewrite run_checks_fired. reflexivity. Qed.

Lemma issues_by_fired (t : string) :
  snd (analyze_title_quality t) = map (fun r => issue_of r t) (fired t).
Proof. unfold analyze_title_quality. rewrite run_checks_fired. reflexivity. Qed.

Lemma penalties_positive (t : string) (rs : list Rule) :
  Forall (fun r => (0 < penalty r)%Z) rs ->
  List.filter (fun r => fires r t) rs <> [] -> (0 < penalties_of t rs)%Z.
Proof.
  unfold penalties_of.
  induction 1 as [|r rs Hr Hrs IH]; cbn [List.filter]; [congruence|].
  destruct (fires r t); cbn [map fold_right]; intros Hne.
  - pose proof (penalties_nonneg t rs) as Hn. unfold penalties_of in Hn.
    assert (Hweak : Forall (fun r => (0 <= penalty r)%Z) rs).
    { revert Hrs. apply List.Forall_impl. intros; lia. }
    specialize (Hn Hweak). lia.
  - apply IH, Hne.
Qed.

Lemma rules_penalties_positive : Forall (fun r => (0 < penalty r)%Z) rules.
Proof. unfold rules, avoid_words. cbn. repeat constructor. Qed.

Lemma length_penalty_le_10 (t : string) :
  (len t <= 150)%nat -> (0 <= length_penalty t <= 10)%Z.
Proof.
  intros H. unfold length_penalty.
  destruct (Nat.ltb_spec 150 (len t)); [lia|].
  destruct (len t <? 70)%nat; lia.
Qed.

(** X1. The analyzer gives the score 100 exactly when it reports no
    issue: every rule that reports an issue also costs points. *)
Theorem perfect_score_iff_no_issue (t : string) :
  fst (analyze_title_quality t) = 100%Z <-> snd (analyze_title_quality t) = [].
Proof.
  rewrite score_by_total, issues_by_fired. split.
  - intros H. destruct (fired t) as [|r rs] eqn:Hf; [reflexivity|exfalso].
    assert (Hpos : (0 < total_penalty t)%Z).
    { apply (penalties_positive t rules rules_penalties_positive).
      fold (fired t). rewrite Hf. discriminate. }
    lia.
  - intros H. apply map_eq_nil in H. unfold total_penalty. rewrite H. reflexivity.
Qed.

(** X2. The marker beside a score is green exactly when the penalties of
    the title sum to at most 10, and red exactly when they exceed 30; a
    title that contains a banned term is never green. *)
Theorem marker_by_penalty (t : string) :
  (score_color (fst (analyze_title_quality t)) = Green <-> (total_penalty t <= 10)%Z)
  /\ (score_color (fst (analyze_title_quality t)) = Red <-> (30 < total_penalty t)%Z)
  /\ (matching_words t <> [] -> score_color (fst (analyze_title_quality t)) <> Green).
Proof.
  rewrite score_by_total. pose proof (total_penalty_nonneg t) as Hn.
  unfold score_color. split; [|split].
  - destruct (Z.leb_spec 90 (Z.max (100 - total_penalty t) 0));
      [split; [lia|reflexivity]|].
    destruct (Z.leb_spec 70 (Z.max (100 - total_penalty t) 0));
      split; try discriminate; lia.
  - destruct (Z.leb_spec 90 (Z.max (100 - total_penalty t) 0));
      [split; [discriminate|lia]|].
    destruct (Z.leb_spec 70 (Z.max (100 - total_penalty t) 0));
      split; try discriminate; try lia; reflexivity.
  - intros Hw.
    assert (Hge : (15 <= total_penalty t)%Z).
    { rewrite total_penalty_split. unfold other_penalty, length_penalty.
      destruct (matching_words t) as [|w ws]; [congruence|]. cbn [List.length].
      destruct (150 <? len t)%nat, (len t <? 70)%nat,
        (isupper t && (10 <? len t)%nat), (contains "!" t); lia. }
    destruct (Z.leb_spec 90 (Z.max (100 - total_penalty t) 0)); [lia|].
    destruct (Z.leb_spec 70 (Z.max (100 - total_penalty t) 0)); discriminate.
Qed.

(** X3. A generated variant whose title has no banned term, is not in
    capitals and has no exclamation mark is marked green: after the cut
    at 150 characters, length alone costs at most 10 points. *)
Theorem generated_green_without_content_issue
        (product : gmap string string) (v : Variant) :
  In v (generate_title_variants product) ->
  other_penalty (v_title v) = 0%Z ->
  score_color (v_score v) = Green /\ (90 <= v_score v)%Z.
Proof.
  intros Hv Hother. apply in_generate in Hv. destruct Hv as (f & _ & _ & ->).
  cbn [variant_of v_title v_score] in *.
  set (t := slice_to 150 (composed product f)) in *.
  pose proof (length_penalty_le_10 t (len_slice_to_le 150 _)) as Hlen.
  rewrite score_formula, Hother. unfold score_color.
  destruct (Z.leb_spec 90 (Z.max (100 - length_penalty t - 0) 0)); [|lia].
  split; [reflexivity|assumption].
Qed.

Lemma generated_green_witness :
  other_penalty (v_title (variant_of long_product "Brand First")) = 0%Z
  /\ score_color (v_score (variant_of long_product "Brand First")) = Green.
Proof.
  assert (Hin : In (variant_of long_product "Brand First")
                   (generate_title_variants long_product))
    by (vm_compute; left; reflexivity).
  assert (Ho : other_penalty (v_title (variant_of long_product "Brand First")) = 0%Z)
    by (vm_compute; reflexivity).
  split; [exact Ho|].
  exact (proj1 (generated_green_without_content_issue long_product _ Hin Ho)).
Defined.

End MarkerFacts.

(** ** More on the generator *)

Module GeneratorExtra.
Import PyStr Analyzer Generator Spec Samples Page.
Import PyStrFacts GeneratorFacts GeneratorClaims.

Lemma len_append (a b : string) : len (a ++ b) = (len a + len b)%nat.
Proof.
  unfold len. induction a as [|c a IH]; [reflexivity|].
  change (String c a ++ b) with (String c (a ++ b)).
  cbn [String.length]. rewrite IH. reflexivity.
Qed.

Lemma len_join (sep : string) (parts : list string) :
  len (join sep parts)
  = (list_sum (map len parts) + len sep * (List.length parts - 1))%nat.
Proof.
  unfold join. induction parts as [|x parts IH].
  - simpl. rewrite Nat.mul_0_r. reflexivity.
  - destruct parts as [|y parts].
    + simpl. rewrite Nat.mul_0_r. lia.
    + change (String.concat sep (x :: y :: parts))
        with (x ++ sep ++ String.concat sep (y :: parts)).
      rewrite !len_append, IH. simpl. rewrite Nat.sub_0_r. lia.
Qed.

Lemma composed_len_joined (product : gmap string string) (formula : string) :
  joined_formula formula ->
  len (composed product formula) = len (composed product "Brand First").
Proof.
  intros [-> | [-> | ->]]; [reflexivity | | ]; unfold composed;
    cbn [String.eqb Ascii.eqb Bool.eqb]; rewrite !len_join, !map_app, !length_app;
    cbn [map List.length app]; unfold list_sum, len;
    cbn [fold_right String.length]; lia.
Qed.

Lemma prefix_slice_to (n : nat) (s : string) :
  String.prefix (slice_to n s) s = true.
Proof.
  unfold slice_to. revert n. induction s as [|c s IH]; intros [|n]; try reflexivity.
  cbn [String.substring String.prefix].
  destruct (ascii_dec c c) as [_|Hne]; [apply IH|congruence].
Qed.

(** X4. The generator returns 0, 1, 4 or 5 variants, never 2 or 3: four
    formulas share the precondition on brand and title, and Attribute
    Rich has its own. *)
Theorem generate_count (product : gmap string string) :
  List.length (generate_title_variants product)
  = ((if nonempty product "brand" && nonempty product "title" then 4 else 0)
     + (if (3 <=? rich_count product)%nat then 1 else 0))%nat
  /\ List.length (generate_title_variants product) <> 2%nat
  /\ List.length (generate_title_variants product) <> 3%nat.
Proof.
  assert (H : List.length (generate_title_variants product)
              = ((if nonempty product "brand" && nonempty product "title" then 4 else 0)
                 + (if (3 <=? rich_count product)%nat then 1 else 0))%nat).
  { rewrite <- (length_map v_formula), generated_formulas.
    unfold formula_order, precondition.
    cbn [List.filter String.eqb Ascii.eqb Bool.eqb].
    destruct (nonempty product "brand" && nonempty product "title"),
      (3 <=? rich_count product)%nat; reflexivity. }
  rewrite H. split; [reflexivity|].
  destruct (nonempty product "brand" && nonempty product "title"),
    (3 <=? rich_count product)%nat; cbn; split; discriminate.
Qed.

(** X5. The Brand First, Product First and Compact variants of a product
    always have the same length: they join the same parts with
    separators of three characters. *)
Theorem joined_formulas_same_length
        (product : gmap string string) (v w : Variant) :
  In v (generate_title_variants product) ->
  In w (generate_title_variants product) ->
  joined_formula (v_formula v) -> joined_formula (v_formula w) ->
  v_length v = v_length w.
Proof.
  intros Hv Hw Hfv Hfw. apply in_generate in Hv, Hw.
  destruct Hv as (f & _ & _ & ->), Hw as (g & _ & _ & ->).
  cbn [variant_of v_length v_formula] in *.
  rewrite !len_slice_to, (composed_len_joined product f Hfv),
    (composed_len_joined product g Hfw). reflexivity.
Qed.

Lemma joined_formulas_same_length_witness :
  v_length (variant_of nike "Product First") = v_length (variant_of nike "Compact").
Proof.
  apply (joined_formulas_same_length nike).
  - vm_compute. right. left. reflexivity.
  - vm_compute. do 3 right. left. reflexivity.
  - right. left. reflexivity.
  - right. right. reflexivity.
Defined.

(** X6. The stored title of a variant is always a prefix of the composed
    string, and the composed string itself when it has at most 150
    characters. *)
Theorem generate_keeps_short_titles (product : gmap string string) (v : Variant) :
  In v (generate_title_variants product) ->
  String.prefix (v_title v) (composed product (v_formula v)) = true
  /\ ((len (composed product (v_formula v)) <= 150)%nat ->
      v_title v = composed product (v_formula v)).
Proof.
  intros Hv. apply in_generate in Hv. destruct Hv as (f & _ & _ & ->).
  cbn [variant_of v_title v_formula]. split.
  - apply prefix_slice_to.
  - apply slice_to_all.
Qed.

Lemma generate_keeps_short_titles_witness :
  v_title (variant_of nike "SEO Natural") = composed nike "SEO Natural"
  /\ v_title (variant_of nike "SEO Natural") = "Nike Running Shoe in Red, 10".
Proof.
  assert (Hin : In (variant_of nike "SEO Natural") (generate_title_variants nike))
    by (vm_compute; do 4 right; left; reflexivity).
  destruct (generate_keeps_short_titles nike _ Hin) as [_ Hshort].
  assert (Heq : v_title (variant_of nike "SEO Natural") = composed nike "SEO Natural")
    by (apply Hshort; vm_compute; lia).
  split; [exact Heq|]. rewrite Heq. vm_compute. reflexivity.
Defined.

End GeneratorExtra.

(** ** Loading a feed *)

Module LoadFacts.
Import PyStr Page PageSamples PyStrFacts.

Lemma str_of_nat_inj (a b : nat) : str_of_nat a = str_of_nat b -> a = b.
Proof.
  unfold str_of_nat. intros H.
  apply (f_equal NilEmpty.uint_of_string) in H.
  rewrite !NilEmpty.usu in H. injection H as H.
  apply (f_equal Nat.of_uint) in H. rewrite !Unsigned.of_to in H. exact H.
Qed.

Lemma append_inj_r (a b c : string) : a ++ b = a ++ c -> b = c.
Proof.
  induction a as [|x a IH]; [auto|].
  change (String x (a ++ b) = String x (a ++ c) -> b = c).
  intros H. injection H as H. auto.
Qed.

Lemma default_id_inj : Injective (fun i => "product_" ++ str_of_nat (i + 1)).
Proof. intros i j H. apply append_inj_r, str_of_nat_inj in H. lia. Qed.

Lemma first_line_append (header rest : string) :
  contains newline header = false ->
  first_line (header ++ newline ++ rest) = header.
Proof.
  induction header as [|c header IH].
  - intros _. reflexivity.
  - change (String c header ++ newline ++ rest)
      with (String c (header ++ newline ++ rest)).
    cbn [first_line contains]. unfold newline at 1.
    rewrite prefix_char, Ascii.eqb_sym.
    destruct (Ascii.eqb c newline_char); [discriminate|].
    cbn [orb]. intros H. rewrite (IH H). reflexivity.
Qed.

Lemma first_line_single (header : string) :
  contains newline header = false -> first_line header = header.
Proof.
  induction header as [|c header IH]; [reflexivity|].
  cbn [first_line contains]. unfold newline at 1.
  rewrite prefix_char, Ascii.eqb_sym.
  destruct (Ascii.eqb c newline_char); [discriminate|].
  cbn [orb]. intros H. rewrite (IH H). reflexivity.
Qed.

(** X7. The identifiers given to a feed of [n] rows without an id column
    are [product_1] to [product_n], in row order, and pairwise distinct. *)
Theorem default_ids_distinct (n : nat) :
  List.length (default_ids n) = n
  /\ List.NoDup (default_ids n)
  /\ (forall k, (k < n)%nat ->
        nth_error (default_ids n) k = Some ("product_" ++ str_of_nat (k + 1))).
Proof.
  unfold default_ids. split; [|split].
  - rewrite length_map, length_seq. reflexivity.
  - apply Injective_map_NoDup; [exact default_id_inj|apply List.seq_NoDup].
  - intros k Hk. rewrite nth_error_map, nth_error_seq.
    destruct (Nat.ltb_spec k n); [reflexivity|lia].
Qed.

(** X8. Only the first line of a feed decides its separator: the feed is
    read as tab-separated exactly when its first line contains a tab,
    whatever the later lines contain, and as comma-separated otherwise. *)
Theorem separator_from_first_line (header rest : string) :
  contains newline header = false ->
  detect_separator (header ++ newline ++ rest) = detect_separator header
  /\ (detect_separator (header ++ newline ++ rest) = tab
      <-> contains tab header = true)
  /\ (detect_separator (header ++ newline ++ rest) = ","
      <-> contains tab header = false).
Proof.
  intros H. unfold detect_separator.
  rewrite (first_line_append header rest H), (first_line_single header H).
  split; [reflexivity|].
  destruct (contains tab header); split; split; intros;
    try reflexivity; try discriminate.
Qed.

Lemma separator_from_first_line_witness :
  detect_separator (tsv_header ++ newline ++ data_lines) = tab
  /\ detect_separator ("id,title" ++ newline ++ data_lines) = ",".
Proof.
  split.
  - apply (separator_from_first_line tsv_header data_lines); vm_compute; reflexivity.
  - apply (separator_from_first_line "id,title" data_lines); vm_compute; reflexivity.
Defined.

End LoadFacts.

(** ** The counters of a product on the page *)

Module SessionFacts.
Import PyStr Analyzer Generator Tracker Spec Samples Page PageSamples.
Import PyStrFacts GeneratorFacts GeneratorClaims TrackerFacts.

Lemma dict_set_at {V : Type} (k : string) (v old : V) (pre post : list (string * V)) :
  ~ In k (map fst pre) ->
  dict_set k v (pre ++ (k, old) :: post) = (pre ++ (k, v) :: post)%list.
Proof.
  induction pre as [|[k' v'] pre IH]; cbn [app dict_set map In fst]; intros Hk.
  - rewrite String.eqb_refl. reflexivity.
  - destruct (String.eqb_spec k' k) as [->|Hne]; [tauto|].
    rewrite IH by tauto. reflexivity.
Qed.

Lemma dict_set_new {V : Type} (k : string) (v : V) (d : list (string * V)) :
  ~ In k (map fst d) -> dict_set k v d = (d ++ [(k, v)])%list.
Proof.
  induction d as [|[k' v'] d IH]; cbn [app dict_set map In fst]; intros Hk.
  - reflexivity.
  - destruct (String.eqb_spec k' k) as [->|Hne]; [tauto|].
    rewrite IH by tauto. reflexivity.
Qed.

Lemma init_from (variants : list Variant) (acc : list (string * Entry)) :
  List.NoDup (map fst acc ++ map v_formula variants) ->
  fold_left (fun d v => dict_set (v_formula v) fresh_entry d) variants acc
  = (acc ++ map (fun v => (v_formula v, fresh_entry)) variants)%list.
Proof.
  revert acc. induction variants as [|v vs IH]; intros acc Hnd.
  - cbn. rewrite app_nil_r. reflexivity.
  - cbn [fold_left map]. rewrite dict_set_new.
    + rewrite IH.
      * rewrite <- app_assoc. reflexivity.
      * rewrite map_app. cbn [map fst]. rewrite <- app_assoc. exact Hnd.
    + cbn [map] in Hnd. apply NoDup_remove_2 in Hnd.
      intros Hin. apply Hnd, in_or_app. left. exact Hin.
Qed.

Lemma render_from (inputs : string -> Z * Z * Z) (variants : list Variant)
      (pre : list (string * Entry)) (olds : list Entry) :
  List.length olds = List.length variants ->
  List.NoDup (map fst pre ++ map v_formula variants) ->
  render_variants inputs variants
    (pre ++ combine (map v_formula variants) olds)
  = (pre ++ map (fun v => (v_formula v, typed_entry (inputs (v_formula v))))
                variants)%list.
Proof.
  unfold render_variants. revert pre olds.
  induction variants as [|v vs IH]; intros pre olds Hlen Hnd.
  - reflexivity.
  - destruct olds as [|old olds]; [discriminate Hlen|].
    cbn [fold_left map combine]. rewrite dict_set_at.
    + change (pre ++ (v_formula v, typed_entry (inputs (v_formula v)))
                :: combine (map v_formula vs) olds)%list
        with (pre ++ [(v_formula v, typed_entry (inputs (v_formula v)))]
                ++ combine (map v_formula vs) olds)%list.
      rewrite app_assoc, IH.
      * rewrite <- app_assoc. reflexivity.
      * cbn in Hlen. lia.
      * rewrite map_app. cbn [map fst]. rewrite <- app_assoc. exact Hnd.
    + cbn [map] in Hnd. apply NoDup_remove_2 in Hnd.
      intros Hin. apply Hnd, in_or_app. left. exact Hin.
Qed.

Lemma checked_fold (inputs : string -> Z * Z * Z) (variants : list Variant)
      (st : loop_state) :
  fold_left checked_step
    (map (fun v => (v_formula v, typed_entry (inputs (v_formula v)))) variants)
    (Some st)
  = Some (fold_left winner_step (stored (typed_counters inputs variants)) st).
Proof.
  revert st. induction variants as [|v vs IH]; intros st; [reflexivity|].
  cbn [map fold_left typed_counters stored]. unfold checked_step at 2.
  cbn [snd fst]. destruct (inputs (v_formula v)) as [[i c] cv] eqn:Hin.
  cbn [typed_entry e_ctr]. rewrite IH. unfold typed_counters, stored.
  f_equal.
Qed.

Lemma fresh_as_combine (variants : list Variant) :
  map (fun v => (v_formula v, fresh_entry)) variants
  = combine (map v_formula variants) (map (fun _ => fresh_entry) variants).
Proof.
  induction variants as [|v vs IH]; [reflexivity|]. cbn. rewrite IH. reflexivity.
Qed.

Lemma generated_formulas_NoDup (product : gmap string string) :
  List.NoDup (map v_formula (generate_title_variants product)).
Proof. rewrite generated_formulas. apply List.NoDup_filter, formula_order_NoDup. Qed.

Lemma init_generated (product : gmap string string) :
  init_test_data (generate_title_variants product)
  = map (fun v => (v_formula v, fresh_entry)) (generate_title_variants product).
Proof.
  unfold init_test_data. rewrite init_from; [reflexivity|].
  apply generated_formulas_NoDup.
Qed.

Lemma render_generated (product : gmap string string) (inputs : string -> Z * Z * Z) :
  render_variants inputs (generate_title_variants product)
    (init_test_data (generate_title_variants product))
  = map (fun v => (v_formula v, typed_entry (inputs (v_formula v))))
        (generate_title_variants product).
Proof.
  rewrite init_generated, fresh_as_combine.
  apply (render_from inputs _ []); [apply length_map|].
  apply generated_formulas_NoDup.
Qed.

(** X9. After variants are generated for a product, the counters hold one
    entry per variant, in variant order; one pass of the page writes a
    rate into every entry, so the winner loop never meets an entry
    without [ctr], and the winner shown is the winner of the counters
    mapping made of the numbers typed for the variants, whatever they
    are. *)
Theorem page_winner_never_fails (product : gmap string string)
        (inputs : string -> Z * Z * Z) :
  init_test_data (generate_title_variants product)
  = map (fun v => (v_formula v, fresh_entry)) (generate_title_variants product)
  /\ render_variants inputs (generate_title_variants product)
       (init_test_data (generate_title_variants product))
     = map (fun v => (v_formula v, typed_entry (inputs (v_formula v))))
           (generate_title_variants product)
  /\ checked_winner
       (render_variants inputs (generate_title_variants product)
          (init_test_data (generate_title_variants product)))
     = Some (select_winner (typed_counters inputs (generate_title_variants product))).
Proof.
  split; [apply init_generated|]. split; [apply render_generated|].
  rewrite render_generated.
  unfold checked_winner, select_winner, show_winner, winner_loop.
  destruct (generate_title_variants product) as [|v vs']; [reflexivity|].
  rewrite checked_fold. cbn [map typed_counters stored].
  destruct (fold_left winner_step _ _) as [m w]. reflexivity.
Qed.

(** Before the pass, the loop would fail on the fresh entries. *)
Example fresh_entries_have_no_rate :
  checked_winner (init_test_data (generate_title_variants nike)) = None.
Proof. vm_compute. reflexivity. Qed.

End SessionFacts.

(** ** More on rates and the winner *)

Module WinnerExtra.
Import PyStr Analyzer Generator Tracker Spec Samples Page.
Import TrackerFacts TrackerClaims.

(** Two ways of cutting one list at its leading maximum agree. *)
Lemma leading_maximum_unique (l pre pre' post post' : list (string * Counters))
      (a a' : string * Counters) :
  l = (pre ++ a :: post)%list -> l = (pre' ++ a' :: post')%list ->
  (forall e, In e pre -> (ctr (snd e) < ctr (snd a))%Q) ->
  (forall e, In e post -> (ctr (snd e) <= ctr (snd a))%Q) ->
  (forall e, In e pre' -> (ctr (snd e) < ctr (snd a'))%Q) ->
  (forall e, In e post' -> (ctr (snd e) <= ctr (snd a'))%Q) ->
  pre = pre' /\ a = a' /\ post = post'.
Proof.
  intros -> Heq Hpre Hpost Hpre' Hpost'.
  apply app_eq_app in Heq. destruct Heq as (m & [[-> Hm]|[-> Hm]]).
  - destruct m as [|y m]; cbn [app] in Hm; injection Hm as Ha Hp; subst a' post'.
    + rewrite app_nil_r. auto.
    + exfalso.
      assert (H1 : (ctr (snd y) < ctr (snd a))%Q) by (apply Hpre, in_elt).
      assert (H2 : (ctr (snd a) <= ctr (snd y))%Q) by (apply Hpost', in_elt).
      exact (Qlt_not_le _ _ H1 H2).
  - destruct m as [|y m]; cbn [app] in Hm; injection Hm as Ha Hp; subst a post.
    + rewrite app_nil_r. auto.
    + exfalso.
      assert (H1 : (ctr (snd y) < ctr (snd a'))%Q) by (apply Hpre', in_elt).
      assert (H2 : (ctr (snd a') <= ctr (snd y))%Q) by (apply Hpost, in_elt).
      exact (Qlt_not_le _ _ H1 H2).
Qed.

Lemma in_stored_inv (counters : list (string * (Z * Z * Z))) (e : string * Counters) :
  In e (stored counters) ->
  exists x, In x counters /\ e = (fst x, store_counters (snd x)).
Proof.
  unfold stored. rewrite in_map_iff. intros (x & <- & Hx). exists x. auto.
Qed.

(** Floats at or below zero, by their shape. *)
Lemma round_negative (mx ex : Z) (lx : location) :
  not_positive (binary_round_aux 53 1024 true mx ex lx).
Proof.
  unfold binary_round_aux.
  destruct (shr_fexp 53 1024 mx ex lx) as [mrs e'].
  destruct (shr_fexp 53 1024 _ e' loc_Exact) as [mrs' e''].
  destruct (shr_m mrs'); [exact I| |exact I].
  destruct (e'' <=? 1024 - 53)%Z; exact I.
Qed.

Lemma true_divide_not_positive (a b : Z) :
  (a <= 0)%Z -> (0 < b)%Z -> not_positive (true_divide a b).
Proof.
  intros Ha Hb. destruct b as [|q|q]; try lia.
  destruct a as [|p|p]; try lia.
  - exact I.
  - unfold true_divide, float_of_int, SFdiv.
    destruct (SFdiv_core_binary 53 1024 (Z.pos p) 0 (Z.pos q) 0) as [[mz ez] lz].
    apply round_negative.
Qed.

Lemma float_times_not_positive (x : spec_float) (p : positive) :
  not_positive x -> not_positive (float_times x (Zpos p)).
Proof.
  destruct x as [s|[|]| |[|] m e]; cbn; intros H; try exact I; try contradiction.
  apply round_negative.
Qed.

Lemma float_value_not_positive (x : spec_float) :
  not_positive x -> (float_value x <= 0)%Q.
Proof.
  destruct x as [s|[|]| |[|] m e]; cbn [not_positive]; intros H; try contradiction.
  - apply Qle_refl.
  - unfold float_value, Qle. cbn [Qnum Qden cond_Zopp].
    assert (0 < 2 ^ 1024)%Z by (apply Z.pow_pos_nonneg; lia). lia.
  - apply Qle_refl.
  - unfold float_value, Qle. destruct e; cbn [Qnum Qden cond_Zopp]; lia.
Qed.

Lemma ctr_without_impressions (clicks impressions : Z) :
  (impressions <= 0)%Z -> compute_ctr clicks impressions = 0%Q.
Proof.
  intros H. unfold compute_ctr.
  destruct (Z.ltb_spec 0 impressions); [lia|reflexivity].
Qed.

(** A positive rate needs clicks: rounding never changes a sign. *)
Lemma ctr_positive_clicks (clicks impressions : Z) :
  (0 < impressions)%Z -> (0 < compute_ctr clicks impressions)%Q -> (0 < clicks)%Z.
Proof.
  intros Hi Hpos. destruct (Z.ltb_spec 0 clicks) as [Hc|Hc]; [exact Hc|exfalso].
  unfold compute_ctr in Hpos. destruct (Z.ltb_spec 0 impressions); [|lia].
  apply (Qlt_not_le _ _ Hpos), float_value_not_positive.
  apply float_times_not_positive, true_divide_not_positive; assumption.
Qed.

Lemma show_winner_some (test_data : list (string * Counters)) (f : string) (c : Q) :
  show_winner test_data = Some (f, c) ->
  exists d, In (f, d) test_data /\ c = ctr d /\ (0 < c)%Q /\ f <> EmptyString.
Proof.
  unfold show_winner. destruct test_data as [|e0 td] eqn:Htd; [discriminate|].
  rewrite <- Htd. clear Htd e0 td. unfold winner_loop.
  destruct (fold_winner_step test_data 0%Q None)
    as [[-> _]|(pre & f' & d & post & -> & -> & Hm & _ & _)]; [discriminate|].
  destruct (truthy f') eqn:Hf; [|discriminate].
  destruct (Qgtb (ctr d) 0); [|discriminate].
  cbn [andb]. intros H. injection H as <- <-.
  exists d. repeat split; auto.
  - apply in_elt.
  - intros ->. discriminate Hf.
Qed.

(** The names and rates of the stored entries decide the outcome. *)
Lemma winner_loop_by_rates (td td' : list (string * Counters)) (st : loop_state) :
  map (fun e => (fst e, ctr (snd e))) td = map (fun e => (fst e, ctr (snd e))) td' ->
  fold_left winner_step td st = fold_left winner_step td' st.
Proof.
  revert td' st. induction td as [|e td IH]; intros [|e' td'] st H; try discriminate H.
  - reflexivity.
  - cbn [map] in H. injection H as Hf Hc Hrest. cbn [fold_left].
    unfold winner_step at 2 4. rewrite Hf, Hc. apply IH, Hrest.
Qed.

(** X11. Conversely to the selection rule, on counters for which line
    281 does not raise, a named entry whose computed rate (the float of
    line 281) is positive, strictly above every earlier computed rate
    and at least every later one is the winner announced. *)
Theorem leading_maximum_wins (pre post : list (string * (Z * Z * Z)))
        (f : string) (x : Z * Z * Z) :
  Forall (fun e => rate_defined (snd e) = true) (pre ++ (f, x) :: post) ->
  f <> EmptyString ->
  (0 < rate x)%Q ->
  (forall e, In e pre -> (rate (snd e) < rate x)%Q) ->
  (forall e, In e post -> (rate (snd e) <= rate x)%Q) ->
  select_winner (pre ++ (f, x) :: post) = Some (f, rate x).
Proof.
  intros _ Hf Hpos Hpre Hpost. unfold select_winner, show_winner.
  set (td := stored (pre ++ (f, x) :: post)).
  assert (Htd : td = (stored pre ++ (f, store_counters x) :: stored post)%list).
  { unfold td, stored. rewrite map_app. reflexivity. }
  destruct td as [|e0 td0] eqn:Hshape.
  { symmetry in Htd. apply app_eq_nil in Htd. destruct Htd as [_ Habs].
    discriminate Habs. }
  rewrite <- Hshape in *. clear Hshape e0 td0. unfold winner_loop.
  destruct (fold_winner_step td 0%Q None)
    as [[_ Hall]|(pre' & f' & d' & post' & Hsplit & -> & Hm & Hpre' & Hpost')].
  - exfalso. apply (Qlt_not_le _ _ Hpos).
    apply (Hall (f, store_counters x)). rewrite Htd. apply in_elt.
  - destruct (leading_maximum_unique td (stored pre) pre' (stored post) post'
                (f, store_counters x) (f', d') Htd Hsplit) as (_ & Heq & _); auto.
    + intros e He. apply in_stored_inv in He. destruct He as (y & Hy & ->).
      apply Hpre, Hy.
    + intros e He. apply in_stored_inv in He. destruct He as (y & Hy & ->).
      apply Hpost, Hy.
    + injection Heq as <- <-. unfold rate in Hpos |- *.
      rewrite (truthy_nonempty f Hf), (proj2 (Qgtb_true _ _) Hpos). reflexivity.
Qed.

Lemma leading_maximum_wins_witness :
  select_winner
    ([("A", (100, 10, 0)%Z)] ++ ("B", (50, 10, 0)%Z) :: [("C", (5, 1, 0)%Z)])
  = Some ("B", rate (50, 10, 0)%Z).
Proof.
  apply leading_maximum_wins.
  - repeat constructor.
  - discriminate.
  - vm_compute. reflexivity.
  - intros e [<-|[]]. vm_compute. reflexivity.
  - intros e [<-|[]]. vm_compute. discriminate.
Defined.

(** Where the computed rates tie, the later entry is not above the
    earlier one, whatever the exact quotients: the earlier one wins. *)
Example near_tie_is_no_leading_maximum :
  ~ (rate (1000000069, 100000007, 0)%Z < rate (1000000059, 100000006, 0)%Z)%Q
  /\ select_winner near_tie = Some ("A", rate (1000000069, 100000007, 0)%Z).
Proof. split; [vm_compute; discriminate|vm_compute; reflexivity]. Qed.

(** X12. A formula announced as winner has a non-empty name, at least one
    impression and at least one click, and the rate announced is the
    rate of its entry; an entry without impressions never wins. *)
Theorem winner_has_clicks (counters : list (string * (Z * Z * Z)))
        (f : string) (c : Q) :
  select_winner counters = Some (f, c) ->
  f <> EmptyString
  /\ exists impressions clicks conversions,
       In (f, (impressions, clicks, conversions)) counters
       /\ c = compute_ctr clicks impressions
       /\ (0 < impressions)%Z /\ (0 < clicks)%Z.
Proof.
  unfold select_winner. intros H. apply show_winner_some in H.
  destruct H as (d & Hin & -> & Hpos & Hf). split; [exact Hf|].
  apply in_stored_inv in Hin. destruct Hin as ([f' [[i cl] cv]] & Hx & Heq).
  cbn [fst snd] in Heq. injection Heq as -> ->.
  cbn [store_counters ctr] in Hpos |- *.
  exists i, cl, cv. split; [exact Hx|]. split; [reflexivity|].
  destruct (Z.ltb_spec 0 i) as [Hi|Hi].
  - split; [exact Hi|]. apply (ctr_positive_clicks cl i Hi), Hpos.
  - exfalso. rewrite (ctr_without_impressions cl i Hi) in Hpos.
    exact (Qlt_irrefl _ Hpos).
Qed.

Lemma winner_has_clicks_witness :
  exists impressions clicks conversions,
    In ("B", (impressions, clicks, conversions)) a_then_b
    /\ (0 < impressions)%Z /\ (0 < clicks)%Z.
Proof.
  assert (H : select_winner a_then_b = Some ("B", rate (50, 10, 0)%Z))
    by (vm_compute; reflexivity).
  destruct (winner_has_clicks a_then_b "B" (rate (50, 10, 0)%Z) H)
    as (_ & i & cl & cv & Hin & _ & Hi & Hc).
  exists i, cl, cv. auto.
Defined.

(** X13. The winner depends only on the names, impressions and clicks of
    the entries, in their order: conversions never change it. *)
Theorem winner_ignores_conversions
        (counters counters' : list (string * (Z * Z * Z))) :
  map (fun e => (fst e, fst (snd e))) counters
  = map (fun e => (fst e, fst (snd e))) counters' ->
  select_winner counters = select_winner counters'.
Proof.
  intros H.
  assert (Hr : map (fun e => (fst e, ctr (snd e))) (stored counters)
               = map (fun e => (fst e, ctr (snd e))) (stored counters')).
  { unfold stored. rewrite !map_map. cbn [fst snd].
    revert counters' H. induction counters as [|[f [[i c] cv]] l IH];
      intros [|[f' [[i' c'] cv']] l'] H; try discriminate H; [reflexivity|].
    cbn [map fst snd] in H |- *. injection H as -> -> -> Hrest.
    f_equal. apply IH, Hrest. }
  unfold select_winner, show_winner, winner_loop.
  rewrite (winner_loop_by_rates _ _ _ Hr).
  destruct (stored counters) as [|e l], (stored counters') as [|e' l'];
    try discriminate Hr; reflexivity.
Qed.

Lemma winner_ignores_conversions_witness :
  select_winner [("A", (100, 10, 9)%Z); ("B", (50, 10, 0)%Z)]
  = select_winner a_then_b.
Proof. apply winner_ignores_conversions. reflexivity. Defined.

End WinnerExtra.

(** ** The export *)

Module ExportFacts.
Import PyStr Analyzer Generator Tracker Spec Samples Page PageSamples.
Import PyStrFacts GeneratorFacts GeneratorClaims SessionFacts.

Lemma export_fold_none (catalog : list (gmap string string))
      (test_data : list (string * list (string * Entry)))
      (variants : list (string * list Variant)) :
  fold_left (export_step catalog test_data) variants None = None.
Proof. induction variants as [|pv l IH]; [reflexivity|exact IH]. Qed.

Lemma export_fold (catalog : list (gmap string string))
      (test_data : list (string * list (string * Entry)))
      (variants : list (string * list Variant)) (rows : list ExportRow) :
  match fold_left (export_step catalog test_data) variants (Some rows) with
  | Some out =>
      (forall pv, In pv variants -> find_product catalog (fst pv) <> None)
      /\ List.length out = (List.length rows + variant_count variants)%nat
  | None => exists pv, In pv variants /\ find_product catalog (fst pv) = None
  end.
Proof.
  revert rows. induction variants as [|pv l IH]; intros rows.
  - cbn. split; [intros pv []|unfold variant_count; cbn; lia].
  - cbn [fold_left]. unfold export_step at 2.
    destruct (find_product catalog (fst pv)) as [product|] eqn:Hfind.
    + specialize (IH (rows ++ map (export_row product (fst pv) test_data) (snd pv))%list).
      destruct (fold_left _ l _) as [out|].
      * destruct IH as [Hall Hlen]. split.
        -- intros pv' [<-|Hin]; [congruence|auto].
        -- rewrite Hlen, length_app, length_map.
           unfold variant_count, list_sum. cbn [map fold_right]. lia.
      * destruct IH as (pv' & Hin & Hnone).
        exists pv'. split; [right; exact Hin|exact Hnone].
    + rewrite export_fold_none. exists pv. split; [left; reflexivity|exact Hfind].
Qed.

Lemma find_product_none (catalog : list (gmap string string)) (product_id : string) :
  find_product catalog product_id = None <->
  forall row, In row catalog -> get row "id" EmptyString <> product_id.
Proof.
  unfold find_product. split.
  - intros H row Hin Heq. apply (find_none _ _ H) in Hin.
    apply String.eqb_neq in Hin. contradiction.
  - intros H. destruct (find _ catalog) as [row|] eqn:Hf; [|reflexivity].
    apply find_some in Hf. destruct Hf as [Hin Heq].
    apply String.eqb_eq in Heq. exfalso. exact (H row Hin Heq).
Qed.

Lemma dict_get_typed (inputs : string -> Z * Z * Z) (variants : list Variant)
      (v : Variant) :
  In v variants ->
  dict_get (v_formula v)
    (map (fun v => (v_formula v, typed_entry (inputs (v_formula v)))) variants)
  = Some (typed_entry (inputs (v_formula v))).
Proof.
  induction variants as [|w l IH]; [intros []|].
  cbn [map dict_get]. intros Hin.
  destruct (String.eqb_spec (v_formula w) (v_formula v)) as [->|Hne]; [reflexivity|].
  destruct Hin as [->|Hin]; [congruence|apply IH, Hin].
Qed.

(** X14. The export fails exactly when some product that has variants is
    absent from the current catalog (no row carries its id); when it
    succeeds, it has one row per stored variant, as many as the
    "Variants Generated" number. *)
Theorem export_fails_on_missing_product
        (catalog : list (gmap string string))
        (variants : list (string * list Variant))
        (test_data : list (string * list (string * Entry))) :
  (export_data catalog variants test_data = None <->
   exists pv, In pv variants
              /\ forall row, In row catalog -> get row "id" EmptyString <> fst pv)
  /\ (forall rows, export_data catalog variants test_data = Some rows ->
        List.length rows = variant_count variants).
Proof.
  pose proof (export_fold catalog test_data variants []) as H.
  fold (export_data catalog variants test_data) in H.
  destruct (export_data catalog variants test_data) as [out|].
  - destruct H as [Hall Hlen]. split.
    + split; [discriminate|]. intros (pv & Hin & Hno). exfalso.
      apply (Hall pv Hin). apply find_product_none, Hno.
    + intros rows Hr. injection Hr as <-. exact Hlen.
  - destruct H as (pv & Hin & Hnone). split.
    + split; [|reflexivity]. intros _. exists pv. split; [exact Hin|].
      apply find_product_none, Hnone.
    + discriminate.
Qed.

(** A product whose variants are kept but which a newly loaded catalog
    no longer lists makes the export fail. *)
Example export_after_catalog_change :
  export_data [shoe] [("product_3", generate_title_variants nike)] [] = None
  /\ exists rows,
       export_data [<["id" := "product_3"]> nike]
                   [("product_3", generate_title_variants nike)] [] = Some rows
       /\ List.length rows = 5%nat.
Proof.
  split; [vm_compute; reflexivity|].
  eexists. split; [vm_compute; reflexivity|reflexivity].
Qed.

(** X15. For a product whose counters were written by a pass of the page,
    every exported row carries the numbers typed for its formula and the
    rate computed from them, never the defaults; its score is the
    analyzer's score of the exported title and its length is the length
    of that title, at most 150. *)
Theorem exported_row_as_typed
        (product row : gmap string string) (product_id : string)
        (inputs : string -> Z * Z * Z)
        (test_data : list (string * list (string * Entry))) (v : Variant) :
  dict_get product_id test_data
  = Some (render_variants inputs (generate_title_variants product)
            (init_test_data (generate_title_variants product))) ->
  In v (generate_title_variants product) ->
  (r_impressions (export_row row product_id test_data v),
   r_clicks (export_row row product_id test_data v),
   r_conversions (export_row row product_id test_data v))
  = inputs (v_formula v)
  /\ r_ctr (export_row row product_id test_data v)
     = compute_ctr (r_clicks (export_row row product_id test_data v))
                   (r_impressions (export_row row product_id test_data v))
  /\ r_quality_score (export_row row product_id test_data v)
     = fst (analyze_title_quality (r_new_title (export_row row product_id test_data v)))
  /\ r_length (export_row row product_id test_data v)
     = len (r_new_title (export_row row product_id test_data v))
  /\ (r_length (export_row row product_id test_data v) <= 150)%nat.
Proof.
  intros Hget Hv. unfold export_row.
  rewrite Hget, render_generated, (dict_get_typed inputs _ v Hv).
  cbn [r_impressions r_clicks r_conversions r_ctr r_quality_score r_length r_new_title].
  destruct (inputs (v_formula v)) as [[i c] cv].
  cbn [typed_entry e_impressions e_clicks e_conversions e_ctr].
  apply in_generate in Hv. destruct Hv as (f & _ & _ & ->).
  cbn [variant_of v_score v_title v_length].
  repeat split. apply len_slice_to_le.
Qed.

Lemma exported_row_as_typed_witness :
  r_ctr (export_row nike "product_1"
           [("product_1", render_variants typed_numbers (generate_title_variants nike)
                            (init_test_data (generate_title_variants nike)))]
           (variant_of nike "Compact"))
  = compute_ctr 10 50.
Proof.
  assert (Hin : In (variant_of nike "Compact") (generate_title_variants nike))
    by (vm_compute; do 3 right; left; reflexivity).
  destruct (exported_row_as_typed nike nike "product_1" typed_numbers
              [("product_1", render_variants typed_numbers (generate_title_variants nike)
                               (init_test_data (generate_title_variants nike)))]
              (variant_of nike "Compact") eq_refl Hin) as (_ & Hctr & _).
  rewrite Hctr. vm_compute. reflexivity.
Defined.

End ExportFacts.
